(** * Mount Diablo Challenge pipeline: scraper, weather join, store, statistics

    A shallow embedding of the Python sources (src/scraper.py,
    src/weather.py, src/database.py, src/analysis.py, dashboard_data.py,
    config.py) together with the properties stated about them.

    Conventions of the embedding.
    - A Python [str] is a [string]; its characters are the code points
      0..255.
    - A Python [int] is a [Z].  A Python [float] is a [pyfloat]: a finite
      value carried as an exact rational in lowest terms, an infinity, or
      NaN.  Binary64 rounding and range are not modelled.
    - A call that may raise returns a [result]; [try_except] is the
      [try: ... except Exception: ...] statement.
    - Logging and [time.sleep] have no effect on the values computed and
      are left out. *)

From Stdlib Require Import ZArith QArith Qreduction Qround Bool List Arith Lia.
From Stdlib Require Import Ascii String.
From Stdlib Require Import Reals Lra.
From Stdlib Require Import Permutation Sorted.
Import ListNotations.

Set Implicit Arguments.
#[local] Set Warnings "-abstract-large-number".

(* ===================================================================== *)
(** * Python primitives *)
(* ===================================================================== *)

Module Py.

Inductive exn : Type :=
| ValueError
| IndexError
| IntegrityError.

Inductive result (A : Type) : Type :=
| Ok (a : A)
| Raise (e : exn).
Arguments Ok {A} a.
Arguments Raise {A} e.

Definition bind {A B : Type} (m : result A) (k : A -> result B) : result B :=
  match m with
  | Ok a => k a
  | Raise e => Raise e
  end.

(** [try: body  except Exception: handler] *)
Definition try_except {A : Type} (body : result A) (handler : exn -> result A)
  : result A :=
  match body with
  | Ok a => Ok a
  | Raise e => handler e
  end.

Declare Scope py_scope.
Delimit Scope py_scope with py.
Notation "x <- m ;; k" := (bind m (fun x => k))
  (at level 61, m at next level, right associativity) : py_scope.

(** ** Floats *)

Inductive pyfloat : Type :=
| Fin (q : Q)
| Inf (negative : bool)
| NaN.

Definition mkfin (q : Q) : pyfloat := Fin (Qred q).

(** [n + f] for an [int] n and a [float] f. *)
Definition int_add_float (n : Z) (f : pyfloat) : pyfloat :=
  match f with
  | Fin q => mkfin (inject_Z n + q)
  | Inf b => Inf b
  | NaN => NaN
  end.

(** [f >= 0] *)
Definition float_nonneg (f : pyfloat) : bool :=
  match f with
  | Fin q => Qle_bool 0 q
  | Inf negative => negb negative
  | NaN => false
  end.

Definition float_neg (f : pyfloat) : pyfloat :=
  match f with
  | Fin q => mkfin (- q)
  | Inf b => Inf (negb b)
  | NaN => NaN
  end.

Definition float_add (a b : pyfloat) : pyfloat :=
  match a, b with
  | NaN, _ | _, NaN => NaN
  | Fin x, Fin y => mkfin (x + y)
  | Inf s, Inf t => if Bool.eqb s t then Inf s else NaN
  | Inf s, Fin _ | Fin _, Inf s => Inf s
  end.

Definition float_sub (a b : pyfloat) : pyfloat := float_add a (float_neg b).

Definition float_mul (a b : pyfloat) : pyfloat :=
  match a, b with
  | NaN, _ | _, NaN => NaN
  | Fin x, Fin y => mkfin (x * y)
  | Inf s, Inf t => Inf (xorb s t)
  | Inf s, Fin q | Fin q, Inf s =>
      if Qeq_bool q 0 then NaN else Inf (xorb s (negb (Qle_bool 0 q)))
  end.

(** [a <= b]; false when either side is NaN. *)
Definition float_leb (a b : pyfloat) : bool :=
  match a, b with
  | NaN, _ | _, NaN => false
  | Fin x, Fin y => Qle_bool x y
  | Inf s, Inf t => s || negb t
  | Inf s, Fin _ => s
  | Fin _, Inf t => negb t
  end.

(** ** Sorting *)

Section Sort.
Variable A : Type.
Variable leb : A -> A -> bool.

Fixpoint insert_sorted (x : A) (l : list A) : list A :=
  match l with
  | [] => [x]
  | y :: l' => if leb x y then x :: l else y :: insert_sorted x l'
  end.

Fixpoint sort (l : list A) : list A :=
  match l with
  | [] => []
  | x :: l' => insert_sorted x (sort l')
  end.
End Sort.

(** ** Characters and strings *)

Local Open Scope nat_scope.

Definition code (c : ascii) : nat := nat_of_ascii c.

Definition between (lo hi n : nat) : bool := (lo <=? n) && (n <=? hi).

(** [str.isspace] on one character: the white space that [str.strip()]
    removes. *)
Definition is_space (c : ascii) : bool :=
  let n := code c in
  between 9 13 n || between 28 32 n || (n =? 133) || (n =? 160).

(** The white space that [int()] and [float()] skip around a literal. *)
Definition is_num_space (c : ascii) : bool :=
  let n := code c in
  between 9 13 n || (n =? 32) || (n =? 133) || (n =? 160).

Definition is_ascii_digit (c : ascii) : bool := between 48 57 (code c).

(** [str.isdigit] on one character: 0-9 and the superscripts 1, 2, 3. *)
Definition is_digit_char (c : ascii) : bool :=
  let n := code c in
  is_ascii_digit c || (n =? 178) || (n =? 179) || (n =? 185).

Definition digit_val (c : ascii) : option Z :=
  if is_ascii_digit c then Some (Z.of_nat (code c - 48)) else None.

Definition is_empty (s : string) : bool :=
  match s with
  | EmptyString => true
  | String _ _ => false
  end.

Section Strip.
Variable ws : ascii -> bool.

Fixpoint lstrip_by (s : string) : string :=
  match s with
  | EmptyString => EmptyString
  | String c s' => if ws c then lstrip_by s' else s
  end.

Fixpoint rstrip_by (s : string) : string :=
  match s with
  | EmptyString => EmptyString
  | String c s' =>
      let r := rstrip_by s' in
      if ws c && is_empty r then EmptyString else String c r
  end.

Definition strip_by (s : string) : string := rstrip_by (lstrip_by s).
End Strip.

(** [s.strip()] *)
Definition strip (s : string) : string := strip_by is_space s.

(** [s.split(sep)] for a one-character separator. *)
Fixpoint split (sep : ascii) (s : string) : list string :=
  match s with
  | EmptyString => [EmptyString]
  | String c s' =>
      let r := split sep s' in
      if Ascii.eqb c sep then EmptyString :: r
      else match r with
           | h :: t => String c h :: t
           | [] => [String c EmptyString]
           end
  end.

(** [s.isdigit()] *)
Fixpoint all_chars (p : ascii -> bool) (s : string) : bool :=
  match s with
  | EmptyString => true
  | String c s' => p c && all_chars p s'
  end.

Definition isdigit (s : string) : bool :=
  negb (is_empty s) && all_chars is_digit_char s.

(** ASCII lower-casing, for the case-insensitive literals of [float()]. *)
Definition lower_char (c : ascii) : ascii :=
  let n := code c in
  if between 65 90 n then ascii_of_nat (n + 32) else c.

Fixpoint lower (s : string) : string :=
  match s with
  | EmptyString => EmptyString
  | String c s' => String (lower_char c) (lower s')
  end.

(** ** Numeric literals *)

Definition is_underscore (c : ascii) : bool := code c =? 95.

(** The rest of a digit run, after a digit: digits, each optionally
    preceded by one underscore. Returns the digits and the unread rest. *)
Fixpoint digits_tail (s : string) : list Z * string :=
  match s with
  | EmptyString => ([], EmptyString)
  | String c s' =>
      match digit_val c with
      | Some d => let (ds, r) := digits_tail s' in (d :: ds, r)
      | None =>
          if is_underscore c then
            match s' with
            | String c2 s'' =>
                match digit_val c2 with
                | Some d => let (ds, r) := digits_tail s'' in (d :: ds, r)
                | None => ([], s)
                end
            | EmptyString => ([], s)
            end
          else ([], s)
      end
  end.

(** A non-empty digit run. *)
Definition digits (s : string) : option (list Z * string) :=
  match s with
  | EmptyString => None
  | String c s' =>
      match digit_val c with
      | Some d => let (ds, r) := digits_tail s' in Some (d :: ds, r)
      | None => None
      end
  end.

Definition number_of (ds : list Z) : Z :=
  fold_left (fun acc d => (10 * acc + d)%Z) ds 0%Z.

(** An optional sign: [true] for a minus. *)
Definition sign (s : string) : bool * string :=
  match s with
  | String c s' =>
      if code c =? 45 then (true, s')
      else if code c =? 43 then (false, s')
      else (false, s)
  | EmptyString => (false, s)
  end.

Definition apply_sign (negative : bool) (n : Z) : Z :=
  if negative then (- n)%Z else n.

(** [int(s)] in base 10. *)
Definition int (s : string) : result Z :=
  let (negative, body) := sign (strip_by is_num_space s) in
  match digits body with
  | Some (ds, EmptyString) => Ok (apply_sign negative (number_of ds))
  | _ => Raise ValueError
  end.

(** [m * 10^k] as a rational. *)
Definition scale10 (m k : Z) : Q :=
  if (0 <=? k)%Z then inject_Z (m * 10 ^ k)
  else Qmake m (Z.to_pos (10 ^ (- k))).

(** The exponent part of a decimal literal: empty, or e/E, an optional
    sign and a digit run, up to the end of the text. *)
Definition exponent (s : string) : option Z :=
  match s with
  | EmptyString => Some 0%Z
  | String c s' =>
      if (code c =? 101) || (code c =? 69) then
        let (negative, body) := sign s' in
        match digits body with
        | Some (ds, EmptyString) => Some (apply_sign negative (number_of ds))
        | _ => None
        end
      else None
  end.

(** An unsigned decimal literal: digits, optional point and fraction,
    optional exponent; at least one digit before the exponent. *)
Definition decimal (s : string) : option Q :=
  let (ip, r1) := match digits s with
                  | Some p => p
                  | None => ([], s)
                  end in
  let (fp, r2) :=
    match r1 with
    | String c r =>
        if code c =? 46 then
          match digits r with
          | Some p => p
          | None => ([], r)
          end
        else ([], r1)
    | EmptyString => ([], r1)
    end in
  match ip ++ fp with
  | [] => None
  | m =>
      match exponent r2 with
      | Some e => Some (scale10 (number_of m) (e - Z.of_nat (List.length fp)))
      | None => None
      end
  end.

Definition string_eqb (a b : string) : bool := String.eqb a b.

(** [float(s)] *)
Definition float (s : string) : result pyfloat :=
  let (negative, body) := sign (strip_by is_num_space s) in
  let low := lower body in
  if string_eqb low "inf" || string_eqb low "infinity" then Ok (Inf negative)
  else if string_eqb low "nan" then Ok NaN
  else
    match decimal body with
    | Some q => Ok (mkfin (if negative then Qopp q else q))
    | None => Raise ValueError
    end.

(** [l[i]] for a non-negative index. *)
Definition getitem {A : Type} (l : list A) (i : nat) : result A :=
  match nth_error l i with
  | Some a => Ok a
  | None => Raise IndexError
  end.

(** [l[i]] for any integer index: a negative one counts from the end. *)
Definition getitem_z {A : Type} (l : list A) (i : Z) : result A :=
  let n := Z.of_nat (List.length l) in
  let j := if (i <? 0)%Z then (i + n)%Z else i in
  if (j <? 0)%Z then Raise IndexError else getitem l (Z.to_nat j).

End Py.


(* ===================================================================== *)
(** * config.py *)
(* ===================================================================== *)

Module Config.

Definition START_LATITUDE : Q := 37885 # 1000.
Definition START_LONGITUDE : Q := - (122059 # 1000).
Definition SUMMIT_LATITUDE : Q := 37881 # 1000.
Definition SUMMIT_LONGITUDE : Q := - (121914 # 1000).

Definition RACE_START_HOUR : nat := 7.
Definition RACE_END_HOUR : nat := 11.

End Config.

(* ===================================================================== *)
(** * Calendar values ([datetime.date], [datetime.datetime]) *)
(* ===================================================================== *)

Module Calendar.
Import Py.
Local Open Scope nat_scope.

Record date : Type := mkdate { d_year : nat; d_month : nat; d_day : nat }.

Record datetime : Type :=
  mkdatetime { dt_date : date; hour : nat; minute : nat; second : nat }.

Definition is_leap (y : nat) : bool :=
  ((y mod 4 =? 0) && negb (y mod 100 =? 0)) || (y mod 400 =? 0).

Definition days_in_month (y m : nat) : nat :=
  match m with
  | 2 => if is_leap y then 29 else 28
  | 4 | 6 | 9 | 11 => 30
  | _ => 31
  end.

Definition valid_date (y m d : nat) : bool :=
  between 1 9999 y && between 1 12 m && between 1 (days_in_month y m) d.

(** Exactly [n] decimal digits, as a number, and the unread rest. *)
Fixpoint fixed_digits (n : nat) (acc : nat) (s : string) : option (nat * string) :=
  match n with
  | O => Some (acc, s)
  | S n' =>
      match s with
      | String c s' =>
          if is_ascii_digit c
          then fixed_digits n' (10 * acc + (code c - 48)) s'
          else None
      | EmptyString => None
      end
  end.

(** The given character, then the rest. *)
Definition expect (k : nat) (s : string) : option string :=
  match s with
  | String c s' => if code c =? k then Some s' else None
  | EmptyString => None
  end.

(** The time of day [HH[:MM[:SS]]], to the end of the text. *)
Definition parse_time (s : string) : option (nat * nat * nat) :=
  match fixed_digits 2 0 s with
  | None => None
  | Some (h, EmptyString) => Some (h, 0, 0)
  | Some (h, r1) =>
      match expect 58 r1 with
      | None => None
      | Some r2 =>
          match fixed_digits 2 0 r2 with
          | None => None
          | Some (m, EmptyString) => Some (h, m, 0)
          | Some (m, r3) =>
              match expect 58 r3 with
              | None => None
              | Some r4 =>
                  match fixed_digits 2 0 r4 with
                  | Some (sec, EmptyString) => Some (h, m, sec)
                  | _ => None
                  end
              end
          end
      end
  end.

(** [datetime.fromisoformat(s)] on the forms
    [YYYY-MM-DD] and [YYYY-MM-DD?HH[:MM[:SS]]] (any one separator
    character); these include the provider's hourly stamps
    [YYYY-MM-DDTHH:MM].  Fractions of a second and zone offsets are not
    covered: on them, as on malformed text, the embedding answers
    [ValueError]. *)
Definition fromisoformat (s : string) : result datetime :=
  match fixed_digits 4 0 s with
  | None => Raise ValueError
  | Some (y, r1) =>
  match expect 45 r1 with
  | None => Raise ValueError
  | Some r2 =>
  match fixed_digits 2 0 r2 with
  | None => Raise ValueError
  | Some (m, r3) =>
  match expect 45 r3 with
  | None => Raise ValueError
  | Some r4 =>
  match fixed_digits 2 0 r4 with
  | None => Raise ValueError
  | Some (d, r5) =>
      if negb (valid_date y m d) then Raise ValueError
      else
        match r5 with
        | EmptyString => Ok (mkdatetime (mkdate y m d) 0 0 0)
        | String _ t =>
            match parse_time t with
            | Some (h, mi, sec) =>
                if (h <=? 23) && (mi <=? 59) && (sec <=? 59)
                then Ok (mkdatetime (mkdate y m d) h mi sec)
                else Raise ValueError
            | None => Raise ValueError
            end
        end
  end end end end end.

End Calendar.

(* ===================================================================== *)
(** * src/scraper.py *)
(* ===================================================================== *)

Module Scraper.
Import Py Calendar.
Local Open Scope string_scope.
Local Open Scope py_scope.

(** One result row: the dict built by [parse_results_table].  A field is
    [None] when the key is absent or holds [None] (what [dict.get]
    returns). *)
Record RaceResult : Type := mkRaceResult {
  year : option Z;
  race_date : option date;
  place : option Z;
  name : string;
  team : string;
  city_state : string;
  gender : string;
  gender_place : string;
  age : option Z;
  age_place : string;
  chip_time_str : string;
  chip_time_seconds : option pyfloat;
  pace : string;
  start_time : string
}.

(** [result['race_date'] = d] *)
Definition set_race_date (d : option date) (r : RaceResult) : RaceResult :=
  mkRaceResult (year r) d (place r) (name r) (team r) (city_state r)
    (gender r) (gender_place r) (age r) (age_place r) (chip_time_str r)
    (chip_time_seconds r) (pace r) (start_time r).

(** [hours * 3600 + minutes * 60 + seconds]: the integer part is summed
    first, then added to the float. *)
Definition hms (hours minutes : Z) (seconds : pyfloat) : pyfloat :=
  int_add_float (hours * 3600 + minutes * 60) seconds.

(** [minutes * 60 + seconds] *)
Definition ms (minutes : Z) (seconds : pyfloat) : pyfloat :=
  int_add_float (minutes * 60) seconds.

Definition parse_chip_time (time_str : string) : result (option pyfloat) :=
  if is_empty time_str || is_empty (strip time_str) then Ok None
  else
    let time_str := strip time_str in
    try_except
      (match split ":" time_str with
       | [p0; p1; p2] =>
           hours <- int p0 ;;
           minutes <- int p1 ;;
           seconds <- float p2 ;;
           Ok (Some (hms hours minutes seconds))
       | [p0; p1] =>
           minutes <- int p0 ;;
           seconds <- float p1 ;;
           Ok (Some (ms minutes seconds))
       | _ => Ok None
       end)
      (fun _ => Ok None).

(** A fetched page, as the scraper looks at it: the rows of the table
    with id [resultsTable] (each row the texts of its [td] cells, header
    row included) when the table is there, whether an anchor with the
    text [Next >] is there, and the [name] and [value] attributes of
    the [input] elements. *)
Record page : Type := mkpage {
  results_table : option (list (list string));
  next_link : bool;
  inputs : list (option string * option string)
}.

(** A dict with string keys, in insertion order. *)
Definition dict : Type := list (string * string).

Fixpoint dict_set (k v : string) (d : dict) : dict :=
  match d with
  | [] => [(k, v)]
  | (k', v') :: d' =>
      if String.eqb k' k then (k, v) :: d' else (k', v') :: dict_set k v d'
  end.

Definition extract_viewstate (soup : page) : dict :=
  fold_left
    (fun form_data inp =>
       let value := match snd inp with Some v => v | None => "" end in
       match fst inp with
       | Some name => if is_empty name then form_data
                      else dict_set name value form_data
       | None => form_data
       end)
    (inputs soup) [].

Definition cell (cells : list string) (i : nat) : result string :=
  c <- getitem cells i ;; Ok (strip c).

(** [int(s) if s.isdigit() else None] *)
Definition int_if_digit (s : string) : result (option Z) :=
  if isdigit s then (n <- int s ;; Ok (Some n)) else Ok None.

(** The body of the [try] for one row. *)
Definition parse_row (year : Z) (cells : list string) : result RaceResult :=
  place <- cell cells 0 ;;
  name <- cell cells 1 ;;
  team <- cell cells 2 ;;
  city_state <- cell cells 3 ;;
  gender <- cell cells 4 ;;
  gender_place <- cell cells 5 ;;
  age <- cell cells 6 ;;
  age_place <- cell cells 7 ;;
  chip_time_str <- cell cells 9 ;;
  pace <- cell cells 10 ;;
  start_time <- cell cells 12 ;;
  chip_time_seconds <- parse_chip_time chip_time_str ;;
  place_v <- int_if_digit place ;;
  age_v <- int_if_digit age ;;
  Ok (mkRaceResult (Some year) None place_v name team city_state gender
        gender_place age_v age_place chip_time_str chip_time_seconds pace
        start_time).

Fixpoint parse_rows (year : Z) (rows : list (list string)) : list RaceResult :=
  match rows with
  | [] => []
  | cells :: rows' =>
      if (List.length cells <? 13)%nat then parse_rows year rows'
      else
        match parse_row year cells with
        | Ok r => r :: parse_rows year rows'
        | Raise _ => parse_rows year rows'
        end
  end.

Definition parse_results_table (soup : page) (year : Z) : list RaceResult :=
  match results_table soup with
  | None => []
  | Some trs => parse_rows year (tl trs)
  end.

Definition max_pages : nat := 100.

Section Crawl.
(** The site: its state, the answer to a GET of the year's URL and to a
    POST of a form to it.  [None] stands for a failed request (an
    exception of the HTTP library). *)
Variable server : Type.
Variable http_get : Z -> server -> option page * server.
Variable http_post : Z -> dict -> server -> option page * server.
(** The date resolver, [get_race_date]: regular expressions over the
    page text; the crawl only hands its answer on. *)
Variable get_race_date : page -> option date.

(** The session: the site and the number of requests sent so far. *)
Record net : Type := mknet { site : server; fetches : nat }.

Definition get_page (year : Z) (n : net) : option page * net :=
  let (r, s) := http_get year (site n) in (r, mknet s (S (fetches n))).

Definition post (year : Z) (form_data : dict) (n : net) : option page * net :=
  let (r, s) := http_post year form_data (site n) in
  (r, mknet s (S (fetches n))).

Definition next_form (soup : page) : dict :=
  dict_set "__EVENTARGUMENT" ""
    (dict_set "__EVENTTARGET" "ctl00$ContentPlaceHolder1$btnNext"
       (extract_viewstate soup)).

(** The [while page_num <= max_pages] loop; [left] is the number of
    iterations still allowed, [max_pages - page_num + 1]. *)
Fixpoint scrape_pages (left : nat) (year : Z) (race_date : option date)
    (soup : page) (all_results : list RaceResult) (n : net)
  : list RaceResult * net :=
  match left with
  | O => (all_results, n)
  | S left' =>
      match parse_results_table soup year with
      | [] => (all_results, n)
      | page_results =>
          let all_results :=
            (all_results ++ map (set_race_date race_date) page_results)%list in
          if negb (next_link soup) then (all_results, n)
          else
            match post year (next_form soup) n with
            | (Some soup', n') =>
                scrape_pages left' year race_date soup' all_results n'
            | (None, n') => (all_results, n')
            end
      end
  end.

Definition scrape_year (year : Z) (n : net) : list RaceResult * net :=
  match get_page year n with
  | (None, n') => ([], n')
  | (Some soup, n') =>
      scrape_pages max_pages year (get_race_date soup) soup [] n'
  end.
(** The years scraped when none is given. *)
Definition default_years : list Z :=
  [2018; 2019; 2021; 2022; 2023; 2024; 2025]%Z.

(** The [for year in years] loop of [scrape_all_years]. *)
Fixpoint scrape_years (years : list Z) (all_results : list RaceResult)
    (n : net) : list RaceResult * net :=
  match years with
  | [] => (all_results, n)
  | year :: rest =>
      let (year_results, n') := scrape_year year n in
      scrape_years rest (all_results ++ year_results)%list n'
  end.

Definition scrape_all_years (years : option (list Z)) (n : net)
  : list RaceResult * net :=
  let years := match years with
               | None => default_years
               | Some l => l
               end in
  scrape_years years [] n.
End Crawl.

End Scraper.

(* ===================================================================== *)
(** * src/weather.py *)
(* ===================================================================== *)

Module Weather.
Import Py Calendar.
Local Open Scope string_scope.
Local Open Scope py_scope.

(** The provider's [hourly] object: parallel arrays by variable name; a
    field is [None] when the key is absent.  An array entry is a number
    or JSON [null]. *)
Record hourly : Type := mkhourly {
  h_time : option (list string);
  h_temperature_2m : option (list (option Q));
  h_windspeed_10m : option (list (option Q));
  h_winddirection_10m : option (list (option Q));
  h_wind_gusts_10m : option (list (option Q))
}.

(** [d.get(key, [])] *)
Definition get_or_empty {A : Type} (v : option (list A)) : list A :=
  match v with
  | Some l => l
  | None => []
  end.

(** [not hourly_data]: the dict has no key. *)
Definition is_empty_dict (h : hourly) : bool :=
  match h_time h, h_temperature_2m h, h_windspeed_10m h,
        h_winddirection_10m h, h_wind_gusts_10m h with
  | None, None, None, None, None => true
  | _, _, _, _, _ => false
  end.

(** One weather record: the dict built by [extract_race_window_data];
    [year], [race_date] and [location] are set later by
    [fetch_weather_for_race]. *)
Record WeatherRecord : Type := mkWeatherRecord {
  timestamp : datetime;
  temperature_2m : option Q;
  windspeed_10m : option Q;
  winddirection_10m : option Q;
  wind_gusts_10m : option Q;
  year : option Z;
  race_date : option date;
  location : option string
}.

(** [a[i] if i < len(a) else None] *)
Definition item_or_none (a : list (option Q)) (i : nat) : result (option Q) :=
  if (i <? List.length a)%nat then getitem a i else Ok None.

(** [config.RACE_START_HOUR <= hour <= config.RACE_END_HOUR] *)
Definition in_race_window (t : datetime) : bool :=
  (Config.RACE_START_HOUR <=? hour t)%nat && (hour t <=? Config.RACE_END_HOUR)%nat.

(** The [for i, timestamp_str in enumerate(timestamps)] loop, from
    index [i] on. *)
Fixpoint window_loop (temps windspeeds winddirections wind_gusts : list (option Q))
    (i : nat) (timestamps : list string) (records : list WeatherRecord)
  : result (list WeatherRecord) :=
  match timestamps with
  | [] => Ok records
  | timestamp_str :: rest =>
      t <- fromisoformat timestamp_str ;;
      if in_race_window t then
        te <- item_or_none temps i ;;
        ws <- item_or_none windspeeds i ;;
        wd <- item_or_none winddirections i ;;
        wg <- item_or_none wind_gusts i ;;
        window_loop temps windspeeds winddirections wind_gusts (S i) rest
          (records ++ [mkWeatherRecord t te ws wd wg None None None])%list
      else
        window_loop temps windspeeds winddirections wind_gusts (S i) rest
          records
  end.

Definition extract_race_window_data (hourly_data : option hourly)
    (race_date : date) (year : Z) : result (list WeatherRecord) :=
  match hourly_data with
  | None => Ok []
  | Some h =>
      if is_empty_dict h then Ok []
      else
        window_loop (get_or_empty (h_temperature_2m h))
          (get_or_empty (h_windspeed_10m h))
          (get_or_empty (h_winddirection_10m h))
          (get_or_empty (h_wind_gusts_10m h))
          0 (get_or_empty (h_time h)) []
  end.

(** [self.locations] *)
Definition locations : list (string * (Q * Q)) :=
  [ ("start", (Config.START_LATITUDE, Config.START_LONGITUDE));
    ("summit", (Config.SUMMIT_LATITUDE, Config.SUMMIT_LONGITUDE)) ].

Fixpoint lookup {A : Type} (k : string) (d : list (string * A)) : option A :=
  match d with
  | [] => None
  | (k', v) :: d' => if String.eqb k' k then Some v else lookup k d'
  end.

(** The race date handed to [fetch_weather_for_race]: a [date] or a
    [str]. *)
Inductive date_arg : Type :=
| DateObj (d : date)
| DateStr (s : string).

(** [record['year'] = year; record['race_date'] = ...; record['location'] = ...] *)
Definition tag (year : Z) (race_date : date) (location_name : string)
    (r : WeatherRecord) : WeatherRecord :=
  mkWeatherRecord (timestamp r) (temperature_2m r) (windspeed_10m r)
    (winddirection_10m r) (wind_gusts_10m r)
    (Some year) (Some race_date) (Some location_name).

Section Fetch.
(** The provider: the [hourly] object answered for a latitude, a
    longitude and a day; [None] for a failed request or an answer
    without [hourly]. *)
Variable api : Q -> Q -> date -> option hourly.

Definition fetch_weather_for_date (race_date : date) (location_name : string)
  : option hourly :=
  match lookup location_name locations with
  | None => None
  | Some (latitude, longitude) => api latitude longitude race_date
  end.

Definition fetch_weather_for_race (year : Z) (race_date : date_arg)
    (location_name : string) : result (list WeatherRecord) :=
  let converted :=
    match race_date with
    | DateObj d => Some d
    | DateStr s =>
        match fromisoformat s with
        | Ok t => Some (dt_date t)
        | Raise _ => None
        end
    end in
  match converted with
  | None => Ok []
  | Some race_date =>
      let hourly_data := fetch_weather_for_date race_date location_name in
      match hourly_data with
      | None => Ok []
      | Some h =>
          if is_empty_dict h then Ok []
          else
            race_window_data <-
              extract_race_window_data hourly_data race_date year ;;
            Ok (map (tag year race_date location_name) race_window_data)
      end
  end.
(** [if not race_date]: [None] and the empty text are false. *)
Definition no_race_date (race_date : option date_arg) : bool :=
  match race_date with
  | None => true
  | Some (DateStr s) => is_empty s
  | Some (DateObj _) => false
  end.

(** The loop of [fetch_all_weather_data] over the items of the dict of
    race dates by year. *)
Fixpoint fetch_all_loop (items : list (Z * option date_arg))
    (all_weather_records : list WeatherRecord)
  : result (list WeatherRecord) :=
  match items with
  | [] => Ok all_weather_records
  | (year, race_date) :: rest =>
      match race_date with
      | Some d =>
          if no_race_date race_date then fetch_all_loop rest all_weather_records
          else
            at_start <- fetch_weather_for_race year d "start" ;;
            at_summit <- fetch_weather_for_race year d "summit" ;;
            fetch_all_loop rest
              (all_weather_records ++ at_start ++ at_summit)%list
      | None => fetch_all_loop rest all_weather_records
      end
  end.

Definition fetch_all_weather_data (race_dates_by_year : list (Z * option date_arg))
  : result (list WeatherRecord) :=
  fetch_all_loop race_dates_by_year [].
End Fetch.

End Weather.

(* ===================================================================== *)
(** * src/database.py *)
(* ===================================================================== *)

Module Database.
Import Py Calendar.
Import Scraper(RaceResult).
Import Weather(WeatherRecord).

(** A stored row: the [id] given by AUTOINCREMENT and the inserted
    columns.  [created_at] (the wall clock) is left out. *)
Record row (A : Type) : Type := mkrow { rowid : Z; cols : A }.
Arguments mkrow {A} rowid cols.

(** The connection's view of the two tables, each with the last [id]
    handed out. *)
Record db : Type := mkdb {
  race_results : list (row RaceResult);
  race_results_seq : Z;
  weather_data : list (row WeatherRecord);
  weather_data_seq : Z
}.

Definition empty_db : db := mkdb [] 0 [] 0.

(** [column = ?] with an integer argument; a NULL column never matches. *)
Definition sql_eq (column : option Z) (arg : Z) : bool :=
  match column with
  | Some v => Z.eqb v arg
  | None => false
  end.

Definition result_year_is (y : Z) (r : row RaceResult) : bool :=
  sql_eq (Scraper.year (cols r)) y.

Definition weather_year_is (y : Z) (r : row WeatherRecord) : bool :=
  sql_eq (Weather.year (cols r)) y.

(** [SELECT COUNT( * ) FROM race_results WHERE year = ?], then [count > 0] *)
Definition year_exists (d : db) (year : Z) : bool :=
  (0 <? List.length (filter (result_year_is year) (race_results d)))%nat.

(** [DELETE FROM race_results WHERE year = ?] *)
Definition delete_race_results (year : Z) (d : db) : db :=
  mkdb (filter (fun r => negb (result_year_is year r)) (race_results d))
       (race_results_seq d) (weather_data d) (weather_data_seq d).

(** [DELETE FROM weather_data WHERE year = ?] *)
Definition delete_weather_data (year : Z) (d : db) : db :=
  mkdb (race_results d) (race_results_seq d)
       (filter (fun r => negb (weather_year_is year r)) (weather_data d))
       (weather_data_seq d).

(** [r.get('year')] is kept when it is true: neither [None] nor 0. *)
Definition truthy_year (y : option Z) : list Z :=
  match y with
  | Some v => if Z.eqb v 0 then [] else [v]
  | None => []
  end.

(** [set(r.get('year') for r in rows if r.get('year'))], listed in the
    order of first appearance. *)
Definition years_to_replace {A : Type} (year_of : A -> option Z) (rows : list A)
  : list Z :=
  nodup Z.eq_dec (flat_map (fun r => truthy_year (year_of r)) rows).

(** One INSERT into [race_results]; [year] is NOT NULL. *)
Definition insert_result (r : RaceResult) (d : db) : result db :=
  match Scraper.year r with
  | None => Raise IntegrityError
  | Some _ =>
      let i := (race_results_seq d + 1)%Z in
      Ok (mkdb (race_results d ++ [mkrow i r]) i
               (weather_data d) (weather_data_seq d))
  end.

(** One INSERT into [weather_data]; [year] is NOT NULL. *)
Definition insert_weather (r : WeatherRecord) (d : db) : result db :=
  match Weather.year r with
  | None => Raise IntegrityError
  | Some _ =>
      let i := (weather_data_seq d + 1)%Z in
      Ok (mkdb (race_results d) (race_results_seq d)
               (weather_data d ++ [mkrow i r]) i)
  end.

(** A statement loop over a batch.  When a statement raises, the loop
    stops there: the state reached and the exception are returned. *)
Fixpoint for_each {A : Type} (stmt : A -> db -> result db) (rows : list A)
    (d : db) : db * result unit :=
  match rows with
  | [] => (d, Ok tt)
  | r :: rows' =>
      match stmt r d with
      | Ok d' => for_each stmt rows' d'
      | Raise e => (d, Raise e)
      end
  end.

(** The replace step of [insert_race_results]. *)
Definition replace_race_years (years : list Z) (d : db) : db :=
  fold_left
    (fun d year => if year_exists d year then delete_race_results year d else d)
    years d.

(** The replace step of [insert_weather_data]. *)
Definition replace_weather_years (years : list Z) (d : db) : db :=
  fold_left
    (fun d year => if year_exists d year then delete_weather_data year d else d)
    years d.

Definition non_empty {A : Type} (l : list A) : bool :=
  match l with
  | [] => false
  | _ :: _ => true
  end.

Definition insert_race_results (results : list RaceResult)
    (replace_existing : bool) (d : db) : db * result unit :=
  let d1 :=
    if replace_existing && non_empty results
    then replace_race_years (years_to_replace Scraper.year results) d
    else d in
  for_each insert_result results d1.

Definition insert_weather_data (weather_records : list WeatherRecord)
    (replace_existing : bool) (d : db) : db * result unit :=
  let d1 :=
    if replace_existing && non_empty weather_records
    then replace_weather_years (years_to_replace Weather.year weather_records) d
    else d in
  for_each insert_weather weather_records d1.

(** A float bound to a REAL column: NaN is stored as NULL. *)
Definition sql_real (v : option pyfloat) : option pyfloat :=
  match v with
  | Some NaN => None
  | _ => v
  end.

(** [SELECT chip_time_seconds FROM race_results
     WHERE year = ? AND chip_time_seconds IS NOT NULL
     ORDER BY chip_time_seconds] *)
Definition select_chip_times (d : db) (year : Z) : list pyfloat :=
  sort float_leb
    (flat_map
       (fun r =>
          if result_year_is year r then
            match sql_real (Scraper.chip_time_seconds (cols r)) with
            | Some f => [f]
            | None => []
            end
          else [])
       (race_results d)).

(** [result[key] = v] on a dict keyed by the percentile. *)
Fixpoint pdict_set (k : Z) (v : pyfloat) (d : list (Z * pyfloat))
  : list (Z * pyfloat) :=
  match d with
  | [] => [(k, v)]
  | (k', v') :: d' =>
      if Z.eqb k' k then (k, v) :: d' else (k', v') :: pdict_set k v d'
  end.

(** [idx = int(len(times) * p / 100)], then the clamp to the last
    index. [int] truncates towards zero. *)
Definition percentile_index (n : nat) (p : Z) : Z :=
  let idx := Z.quot (Z.of_nat n * p) 100 in
  if (idx >=? Z.of_nat n)%Z then (Z.of_nat n - 1)%Z else idx.

Fixpoint percentiles_loop (times : list pyfloat) (percentiles : list Z)
    (result : list (Z * pyfloat)) : Py.result (list (Z * pyfloat)) :=
  match percentiles with
  | [] => Ok result
  | p :: rest =>
      match getitem_z times (percentile_index (List.length times) p) with
      | Ok v => percentiles_loop times rest (pdict_set p v result)
      | Raise e => Raise e
      end
  end.

(** The result dict is keyed by the percentile [p] (the source key is
    the text [p] followed by the number). *)
Definition get_percentiles_by_year (d : db) (year : Z) (percentiles : list Z)
  : Py.result (list (Z * pyfloat)) :=
  match select_chip_times d year with
  | [] => Ok []
  | times => percentiles_loop times percentiles []
  end.

Definition default_percentiles : list Z := [25; 50; 75]%Z.

(** [delete_year_data]: the year's rows leave both tables. *)
Definition delete_year_data (year : Z) (d : db) : db :=
  delete_weather_data year (delete_race_results year d).




(** [SELECT DISTINCT year FROM race_results ORDER BY year]; the column
    is NOT NULL, so a row without a year gives nothing. *)
Definition get_all_years (d : db) : list Z :=
  sort Z.leb
    (nodup Z.eq_dec
       (flat_map (fun r => match Scraper.year (cols r) with
                           | Some y => [y]
                           | None => []
                           end)
          (race_results d))).

End Database.

(* ===================================================================== *)
(** * src/analysis.py *)
(* ===================================================================== *)

Module Analysis.
Import Py.
Import Database.

(** [a + (b - a) * t], replaced by [b - (b - a) * (1 - t)] where
    [t >= 0.5]: the interpolation step of the quantile. *)
Definition lerp (a b : pyfloat) (t : Q) : pyfloat :=
  let diff_b_a := float_sub b a in
  if Qle_bool (1 # 2) t
  then float_sub b (float_mul diff_b_a (mkfin (1 - t)))
  else float_add a (float_mul diff_b_a (mkfin t)).

(** [Series.quantile(q)] with linear interpolation, on the values
    without NaN: the position is [(n - 1) * q]; the two neighbouring
    order statistics are interpolated.  [None] on an empty series. *)
Definition quantile (values : list pyfloat) (q : Q) : option pyfloat :=
  let sorted := sort float_leb values in
  let n := List.length sorted in
  let virtual := (inject_Z (Z.of_nat n - 1) * q)%Q in
  let previous := Qfloor virtual in
  let gamma := (virtual - inject_Z previous)%Q in
  let clip i := Z.to_nat (Z.max 0 (Z.min i (Z.of_nat n - 1))) in
  match nth_error sorted (clip previous), nth_error sorted (clip (previous + 1)%Z) with
  | Some a, Some b => Some (lerp a b gamma)
  | _, _ => None
  end.

(** The median of a group: the middle value, or the mean of the two
    middle values. *)
Definition median (values : list pyfloat) : option pyfloat :=
  let sorted := sort float_leb values in
  let n := List.length sorted in
  if Nat.even n then
    match nth_error sorted (n / 2 - 1), nth_error sorted (n / 2) with
    | Some a, Some b => Some (float_mul (float_add a b) (mkfin (1 # 2)))
    | _, _ => None
    end
  else nth_error sorted (n / 2).

(** One row of the statistics table.  The mean and the standard
    deviation columns and the formatted texts are left out. *)
Record YearStatistics : Type := mkYearStatistics {
  st_year : Z;
  st_count : nat;
  st_median : option pyfloat;
  st_min : option pyfloat;
  st_max : option pyfloat;
  st_p25 : option pyfloat;
  st_p75 : option pyfloat
}.

(** The rows of [get_race_results_df] with [chip_time_seconds] not
    null, as (year, value). *)
Definition chip_time_column (d : db) : list (Z * pyfloat) :=
  flat_map
    (fun r =>
       match Scraper.year (cols r), sql_real (Scraper.chip_time_seconds (cols r)) with
       | Some y, Some f => [(y, f)]
       | _, _ => []
       end)
    (race_results d).

(** The values of one group of [groupby('year')]. *)
Definition group (column : list (Z * pyfloat)) (y : Z) : list pyfloat :=
  map snd (filter (fun e => Z.eqb (fst e) y) column).

Definition year_statistics (column : list (Z * pyfloat)) (y : Z)
  : YearStatistics :=
  let x := group column y in
  let sorted := sort float_leb x in
  mkYearStatistics y (List.length x) (median x)
    (hd_error sorted) (last (map Some sorted) None)
    (quantile x (1 # 4)) (quantile x (3 # 4)).

Definition calculate_yearly_statistics (d : db) : list YearStatistics :=
  let column := chip_time_column d in
  let years := sort Z.leb (nodup Z.eq_dec (map fst column)) in
  map (year_statistics column) years.

End Analysis.

(* ===================================================================== *)
(** * dashboard_data.py *)
(* ===================================================================== *)

(** The correlation is computed over the real numbers: a value of the
    numeric library is a real, an infinity or NaN. *)
Module Dashboard.
Local Open Scope R_scope.

Inductive rfloat : Type :=
| RFin (r : R)
| RInf (negative : bool)
| RNaN.

(** [[(x, y) for x, y in zip(x_values, y_values)
      if x is not None and y is not None]] *)
Definition valid_pairs (x_values y_values : list (option R)) : list (R * R) :=
  flat_map
    (fun p => match p with
              | (Some x, Some y) => [(x, y)]
              | _ => []
              end)
    (combine x_values y_values).

Definition rsum (l : list R) : R := fold_right Rplus 0 l.

Definition mean (l : list R) : R := rsum l / INR (List.length l).

(** The sum of the products of the deviations from the means. *)
Definition codev (x y : list R) : R :=
  rsum (map (fun p => (fst p - mean x) * (snd p - mean y)) (combine x y)).

(** An entry of [cov(x, y)]: one degree of freedom is taken off. *)
Definition cov (x y : list R) : R := codev x y / (INR (List.length x) - 1).

(** [a / b] for a divisor that is a non-negative real. *)
Definition rdiv (a : rfloat) (b : R) : rfloat :=
  match a with
  | RNaN => RNaN
  | RInf s => RInf s
  | RFin r =>
      if Req_dec_T b 0 then
        if Req_dec_T r 0 then RNaN
        else RInf (if Rlt_dec r 0 then true else false)
      else RFin (r / b)
  end.

(** [clip(c, -1, 1)] *)
Definition clip (a : rfloat) : rfloat :=
  match a with
  | RNaN => RNaN
  | RInf s => RFin (if s then -1 else 1)
  | RFin r => RFin (Rmin (Rmax r (-1)) 1)
  end.

(** [corrcoef(x, y)[0, 1]]: the covariance, divided by the standard
    deviation of x, then by that of y, then clipped. *)
Definition corrcoef (x y : list R) : rfloat :=
  let stddev_x := sqrt (cov x x) in
  let stddev_y := sqrt (cov y y) in
  clip (rdiv (rdiv (RFin (cov x y)) stddev_x) stddev_y).

(** Rounding to the nearest integer, a tie to the even one. *)
Definition rint (r : R) : Z :=
  let f := Zfloor r in
  let d := r - IZR f in
  if Rlt_dec d (1 / 2) then f
  else if Rlt_dec (1 / 2) d then (f + 1)%Z
  else if Z.even f then f else (f + 1)%Z.

(** [round(v, 3)] *)
Definition round3 (a : rfloat) : rfloat :=
  match a with
  | RFin r => RFin (IZR (rint (r * 1000)) / 1000)
  | other => other
  end.

Definition calculate_correlation (x_values y_values : list (option R))
  : option rfloat :=
  let pairs := valid_pairs x_values y_values in
  if (List.length pairs <? 2)%nat then None
  else
    let x := map fst pairs in
    let y := map snd pairs in
    Some (round3 (corrcoef x y)).







End Dashboard.

(* ===================================================================== *)
(** * main.py *)
(* ===================================================================== *)

Module Main.
Import Py Database.


End Main.

(* ===================================================================== *)
(** * Properties *)
(* ===================================================================== *)

Import Py Calendar.
Local Open Scope string_scope.

(** ** Strings *)

Lemma is_empty_true (s : string) : is_empty s = true -> s = "".
Proof. destruct s; simpl; congruence. Qed.

Lemma all_chars_lstrip (p ws : ascii -> bool) (s : string) :
  all_chars p s = true -> all_chars p (lstrip_by ws s) = true.
Proof.
  induction s as [|c s IH]; simpl; intros H; [reflexivity|].
  apply andb_true_iff in H as [Hc Hs].
  destruct (ws c); [auto|]. simpl. now rewrite Hc, Hs.
Qed.

Lemma all_chars_rstrip (p ws : ascii -> bool) (s : string) :
  all_chars p s = true -> all_chars p (rstrip_by ws s) = true.
Proof.
  induction s as [|c s IH]; simpl; intros H; [reflexivity|].
  apply andb_true_iff in H as [Hc Hs].
  destruct (ws c && is_empty (rstrip_by ws s)); simpl; [reflexivity|].
  now rewrite Hc, IH.
Qed.

Lemma all_chars_strip_by (p ws : ascii -> bool) (s : string) :
  all_chars p s = true -> all_chars p (strip_by ws s) = true.
Proof. intros H. unfold strip_by. now apply all_chars_rstrip, all_chars_lstrip. Qed.

Lemma split_not_nil (sep : ascii) (s : string) : split sep s <> [].
Proof.
  destruct s as [|c s]; simpl; [discriminate|].
  destruct (Ascii.eqb c sep); [discriminate|].
  destruct (split sep s); discriminate.
Qed.

Lemma all_chars_split (p : ascii -> bool) (sep : ascii) (s : string) :
  all_chars p s = true -> Forall (fun seg => all_chars p seg = true) (split sep s).
Proof.
  induction s as [|c s IH]; simpl; intros H.
  - repeat constructor.
  - apply andb_true_iff in H as [Hc Hs]. specialize (IH Hs).
    destruct (Ascii.eqb c sep).
    + constructor; [reflexivity|assumption].
    + destruct (split sep s) as [|h t] eqn:E.
      * now destruct (split_not_nil sep s).
      * inversion IH; subst. constructor; [simpl; now rewrite Hc|assumption].
Qed.

(** ** Number literals *)

Lemma digit_val_range (c : ascii) (d : Z) : digit_val c = Some d -> (0 <= d)%Z.
Proof.
  unfold digit_val. destruct (is_ascii_digit c); [|discriminate].
  intros H; injection H as <-. lia.
Qed.

Lemma digits_tail_nonneg (s : string) :
  Forall (fun d => 0 <= d)%Z (fst (digits_tail s)).
Proof.
  assert (G : forall n s, (String.length s <= n)%nat ->
              Forall (fun d => 0 <= d)%Z (fst (digits_tail s))).
  { induction n as [|n IH]; intros [|c t] Hlen; simpl in *;
      try constructor; try lia.
    destruct (digit_val c) as [d|] eqn:Ed.
    - specialize (IH t ltac:(lia)).
      destruct (digits_tail t) as [ds r]; simpl in *.
      constructor; [eapply digit_val_range; eassumption|assumption].
    - destruct (is_underscore c); [|constructor].
      destruct t as [|c2 t2]; [constructor|].
      destruct (digit_val c2) as [d|] eqn:Ed2; [|constructor].
      simpl in Hlen. specialize (IH t2 ltac:(lia)).
      destruct (digits_tail t2) as [ds r]; simpl in *.
      constructor; [eapply digit_val_range; eassumption|assumption]. }
  exact (G (String.length s) s (Nat.le_refl _)).
Qed.

Lemma digits_nonneg (s : string) (ds : list Z) (r : string) :
  digits s = Some (ds, r) -> Forall (fun d => 0 <= d)%Z ds.
Proof.
  unfold digits. destruct s as [|c t]; [discriminate|].
  destruct (digit_val c) as [d|] eqn:Ed; [|discriminate].
  pose proof (digits_tail_nonneg t) as Ht.
  destruct (digits_tail t) as [ds' r']; simpl in Ht.
  intros H; injection H as <- <-.
  constructor; [eapply digit_val_range; eassumption|assumption].
Qed.

Lemma number_of_nonneg (ds : list Z) :
  Forall (fun d => 0 <= d)%Z ds -> (0 <= number_of ds)%Z.
Proof.
  unfold number_of.
  assert (G : forall acc, (0 <= acc)%Z -> Forall (fun d => 0 <= d)%Z ds ->
              (0 <= fold_left (fun a d => 10 * a + d) ds acc)%Z).
  { induction ds as [|d ds IH]; intros acc Ha Hds; [assumption|].
    inversion Hds; subst. cbv beta in *.
    change (0 <= fold_left (fun a d => 10 * a + d) ds (10 * acc + d))%Z.
    apply IH; [lia|assumption]. }
  intros H. apply G; [lia|assumption].
Qed.

(** The character is not a minus sign. *)
Definition not_minus (c : ascii) : bool := negb (code c =? 45)%nat.

Lemma sign_no_minus (s : string) :
  all_chars not_minus s = true ->
  fst (sign s) = false /\ all_chars not_minus (snd (sign s)) = true.
Proof.
  destruct s as [|c t]; simpl; [auto|].
  intros H. apply andb_true_iff in H as [Hc Ht].
  pose proof Hc as Hc'. unfold not_minus in Hc'. apply negb_true_iff in Hc'.
  rewrite Hc'.
  destruct (code c =? 43)%nat; simpl; [auto|].
  split; [reflexivity|]. now rewrite Hc, Ht.
Qed.

Lemma int_no_minus (s : string) (n : Z) :
  all_chars not_minus s = true -> int s = Ok n -> (0 <= n)%Z.
Proof.
  intros Hs. unfold int.
  pose proof (sign_no_minus _ (all_chars_strip_by not_minus is_num_space s Hs))
    as [Hneg _].
  destruct (sign (strip_by is_num_space s)) as [negative body]; simpl in Hneg.
  subst negative.
  destruct (digits body) as [[ds [|c r]]|] eqn:E; try discriminate.
  intros H; injection H as <-. simpl.
  eapply number_of_nonneg, digits_nonneg; eassumption.
Qed.

Lemma scale10_nonneg (m k : Z) : (0 <= m)%Z -> 0 <= scale10 m k.
Proof.
  intros Hm. unfold scale10. destruct (0 <=? k)%Z eqn:E.
  - unfold Qle; simpl. apply Z.leb_le in E.
    pose proof (Z.pow_nonneg 10 k ltac:(lia)). nia.
  - unfold Qle; simpl. lia.
Qed.

Lemma decimal_nonneg (s : string) (q : Q) : decimal s = Some q -> 0 <= q.
Proof.
  unfold decimal.
  destruct (digits s) as [[ip r1]|] eqn:E1.
  - assert (Hip := digits_nonneg _ E1).
    set (second := match r1 with
                   | String c r => if (code c =? 46)%nat
                                   then match digits r with Some p => p | None => ([], r) end
                                   else ([], r1)
                   | EmptyString => ([], r1) end).
    assert (Hfp : Forall (fun d => 0 <= d)%Z (fst second)).
    { subst second. destruct r1 as [|c r]; [constructor|].
      destruct (code c =? 46)%nat; [|constructor].
      destruct (digits r) as [[fp r2]|] eqn:E2; [|constructor].
      simpl. eapply digits_nonneg; eassumption. }
    destruct second as [fp r2]; simpl in Hfp.
    destruct (ip ++ fp)%list as [|d m] eqn:Em; [discriminate|].
    destruct (exponent r2); [|discriminate].
    intros H; injection H as <-. apply scale10_nonneg, number_of_nonneg.
    rewrite <- Em. apply Forall_app; split; assumption.
  - set (second := match s with
                   | String c r => if (code c =? 46)%nat
                                   then match digits r with Some p => p | None => ([], r) end
                                   else ([], s)
                   | EmptyString => ([], s) end).
    assert (Hfp : Forall (fun d => 0 <= d)%Z (fst second)).
    { subst second. destruct s as [|c r]; [constructor|].
      destruct (code c =? 46)%nat; [|constructor].
      destruct (digits r) as [[fp r2]|] eqn:E2; [|constructor].
      simpl. eapply digits_nonneg; eassumption. }
    destruct second as [fp r2]; simpl in Hfp.
    destruct ([] ++ fp)%list as [|d m] eqn:Em; [discriminate|].
    destruct (exponent r2); [|discriminate].
    intros H; injection H as <-. apply scale10_nonneg, number_of_nonneg.
    rewrite <- Em. assumption.
Qed.

Lemma mkfin_nonneg (q : Q) : 0 <= q -> float_nonneg (mkfin q) = true.
Proof.
  intros H. unfold mkfin; simpl. apply Qle_bool_iff.
  now rewrite Qred_correct.
Qed.

Lemma float_no_minus (s : string) (f : pyfloat) :
  all_chars not_minus s = true -> float s = Ok f -> f <> NaN ->
  float_nonneg f = true.
Proof.
  intros Hs. unfold float.
  pose proof (sign_no_minus _ (all_chars_strip_by not_minus is_num_space s Hs))
    as [Hneg _].
  destruct (sign (strip_by is_num_space s)) as [negative body]; simpl in Hneg.
  subst negative.
  destruct (string_eqb (lower body) "inf" || string_eqb (lower body) "infinity").
  - intros H _; injection H as <-. reflexivity.
  - destruct (string_eqb (lower body) "nan").
    + intros H Hn; injection H as <-. now destruct Hn.
    + destruct (decimal body) as [q|] eqn:E; [|discriminate].
      intros H _; injection H as <-. apply mkfin_nonneg.
      eapply decimal_nonneg; eassumption.
Qed.

Lemma int_add_float_nonneg (n : Z) (f : pyfloat) :
  (0 <= n)%Z -> float_nonneg f = true -> float_nonneg (int_add_float n f) = true.
Proof.
  intros Hn. destruct f as [q|b|]; [|auto|auto].
  unfold int_add_float. intros Hq. simpl in Hq.
  apply Qle_bool_iff in Hq. apply mkfin_nonneg.
  assert (0 <= inject_Z n) by (unfold Qle; simpl; lia).
  apply Qle_trans with (0 + 0); [apply Qle_refl|now apply Qplus_le_compat].
Qed.

Lemma int_add_float_nan (n : Z) (f : pyfloat) :
  int_add_float n f <> NaN -> f <> NaN.
Proof. destruct f; simpl; congruence. Qed.

(** ** The duration parser *)

Import Scraper.

Lemma bind_Ok (A B : Type) (m : result A) (k : A -> result B) (b : B) :
  bind m k = Ok b -> exists a, m = Ok a /\ k a = Ok b.
Proof. destruct m as [a|e]; simpl; [eauto|discriminate]. Qed.











(** ** Result rows *)

Lemma parse_chip_time_no_minus (s : string) (f : pyfloat) :
  all_chars not_minus s = true ->
  parse_chip_time s = Ok (Some f) -> f <> NaN -> float_nonneg f = true.
Proof.
  intros Hs. unfold parse_chip_time.
  destruct (is_empty s || is_empty (strip s)); [discriminate|].
  pose proof (all_chars_split not_minus ":" _
                (all_chars_strip_by not_minus is_space s Hs)) as Hseg.
  fold (strip s) in Hseg. revert Hseg.
  destruct (split ":" (strip s)) as [|p0 [|p1 [|p2 [|p3 l]]]];
    intros Hseg; try discriminate.
  - pose proof (Forall_inv Hseg) as H0.
    pose proof (Forall_inv (Forall_inv_tail Hseg)) as H1. cbv beta in *.
    destruct (int p0) as [mi|] eqn:E0; [|discriminate].
    destruct (float p1) as [sf|] eqn:E1; [|discriminate].
    simpl. intros H Hn. injection H as <-. unfold ms in *.
    apply int_add_float_nonneg.
    + pose proof (int_no_minus _ H0 E0). lia.
    + eapply float_no_minus; eauto using int_add_float_nan.
  - pose proof (Forall_inv Hseg) as H0.
    pose proof (Forall_inv (Forall_inv_tail Hseg)) as H1.
    pose proof (Forall_inv (Forall_inv_tail (Forall_inv_tail Hseg))) as H2.
    cbv beta in *.
    destruct (int p0) as [hi|] eqn:E0; [|discriminate].
    destruct (int p1) as [mi|] eqn:E1; [|discriminate].
    destruct (float p2) as [sf|] eqn:E2; [|discriminate].
    simpl. intros H Hn. injection H as <-. unfold hms in *.
    apply int_add_float_nonneg.
    + pose proof (int_no_minus _ H0 E0). pose proof (int_no_minus _ H1 E1). lia.
    + eapply float_no_minus; eauto using int_add_float_nan.
Qed.

Ltac invert_binds H :=
  repeat (let a := fresh "v" in let E := fresh "E" in
          apply bind_Ok in H; destruct H as (a & E & H)).

Lemma parse_row_chip_time (y : Z) (cells : list string) (r : RaceResult) :
  parse_row y cells = Ok r ->
  parse_chip_time (chip_time_str r) = Ok (chip_time_seconds r).
Proof.
  unfold parse_row. intros H. invert_binds H.
  injection H as <-. simpl. assumption.
Qed.

Lemma parse_rows_In (y : Z) (rows : list (list string)) (r : RaceResult) :
  In r (parse_rows y rows) ->
  exists cells, In cells rows /\ parse_row y cells = Ok r.
Proof.
  induction rows as [|cells rows IH]; simpl; [tauto|].
  destruct (List.length cells <? 13)%nat.
  - intros H. destruct (IH H) as (c & Hc & Hr). eauto.
  - destruct (parse_row y cells) as [r0|e] eqn:E.
    + intros [<-|H]; [eauto|]. destruct (IH H) as (c & Hc & Hr). eauto.
    + intros H. destruct (IH H) as (c & Hc & Hr). eauto.
Qed.

Lemma parse_results_table_chip_time (soup : page) (y : Z) (r : RaceResult) :
  In r (parse_results_table soup y) ->
  parse_chip_time (chip_time_str r) = Ok (chip_time_seconds r).
Proof.
  unfold parse_results_table. destruct (results_table soup); [|intros []].
  intros H. apply parse_rows_In in H as (cells & _ & H).
  eapply parse_row_chip_time; eassumption.
Qed.

(** A table row of thirteen cells with the given place and chip time. *)
Definition sample_cells (place chip : string) : list string :=
  [place; "A Rider"; "Team"; "Town, CA"; "M"; "1"; "30"; "1 / 10"; "";
   chip; "4:00/mile"; ""; "8:00 AM"].

Definition header_cells : list string := [].

Definition sample_page (rows : list (list string)) (next : bool) : page :=
  mkpage (Some (header_cells :: rows)) next
    [(Some "__VIEWSTATE", Some "abc"); (None, Some "x"); (Some "", None)].

(** The claim of C7 read on every row fails: the chip-time cell "-1:00"
    gives a row whose seconds are present and negative (-60). *)
Lemma chip_time_seconds_negative :
  ~ (forall (soup : page) (y : Z) (r : RaceResult) (f : pyfloat),
       In r (parse_results_table soup y) ->
       chip_time_seconds r = Some f -> float_nonneg f = true).
Proof.
  intros H.
  specialize (H (sample_page [sample_cells "1" "-1:00"] false) 2024%Z
                (mkRaceResult (Some 2024%Z) None (Some 1%Z) "A Rider" "Team"
                   "Town, CA" "M" "1" (Some 30%Z) "1 / 10" "-1:00"
                   (Some (Fin (-60))) "4:00/mile" "8:00 AM")
                (Fin (-60))).
  assert (E : float_nonneg (Fin (-60)) = true).
  { apply H; [left; reflexivity|reflexivity]. }
  discriminate E.
Qed.

(** C7, amended. On every row produced by the page parser the seconds
    are what the duration parser computes from the row's chip-time text,
    so equal texts give equal seconds; and when they are present they
    are non-negative provided the text has no minus sign and the value
    is not NaN. *)
Theorem chip_time_seconds_invariant :
  forall (soup : page) (y : Z) (r : RaceResult),
    In r (parse_results_table soup y) ->
    parse_chip_time (chip_time_str r) = Ok (chip_time_seconds r) /\
    (forall (soup' : page) (y' : Z) (r' : RaceResult),
       In r' (parse_results_table soup' y') ->
       chip_time_str r = chip_time_str r' ->
       chip_time_seconds r = chip_time_seconds r') /\
    (forall f : pyfloat,
       chip_time_seconds r = Some f ->
       all_chars not_minus (chip_time_str r) = true -> f <> NaN ->
       float_nonneg f = true).
Proof.
  intros soup y r Hr.
  pose proof (parse_results_table_chip_time _ _ _ Hr) as E.
  split; [assumption|]. split.
  - intros soup' y' r' Hr' Heq.
    pose proof (parse_results_table_chip_time _ _ _ Hr') as E'.
    rewrite <- Heq, E in E'. now injection E'.
  - intros f Hf Hs Hn. rewrite Hf in E.
    eapply parse_chip_time_no_minus; eassumption.
Qed.

Lemma chip_time_seconds_invariant_witness :
  float_nonneg (Fin (7447 # 2)) = true.
Proof.
  pose (r := mkRaceResult (Some 2024%Z) None (Some 1%Z) "A Rider" "Team"
               "Town, CA" "M" "1" (Some 30%Z) "1 / 10" "1:02:03.5"
               (Some (Fin (7447 # 2))) "4:00/mile" "8:00 AM").
  destruct (chip_time_seconds_invariant
              (sample_page [sample_cells "1" "1:02:03.5"] false) 2024%Z r)
    as (_ & _ & H).
  - left. reflexivity.
  - apply (H (Fin (7447 # 2))); [reflexivity|reflexivity|discriminate].
Defined.

(** ** The pagination loop *)

Section CrawlFacts.
Variable server : Type.
Variable http_get : Z -> server -> option page * server.
Variable http_post : Z -> dict -> server -> option page * server.
Variable get_race_date : page -> option date.

(** A page without result rows ends the loop: nothing is added and no
    request is sent. *)
Lemma scrape_pages_no_rows (left : nat) (y : Z) (d : option date)
    (soup : page) (acc : list RaceResult) (n : net server) :
  parse_results_table soup y = [] ->
  scrape_pages http_post left y d soup acc n = (acc, n).
Proof. intros H. destruct left; simpl; [reflexivity|now rewrite H]. Qed.

(** A page with rows and a next link: its rows are added, one POST is
    sent, and the loop goes on with the answer. *)
Lemma scrape_pages_next (left : nat) (y : Z) (d : option date)
    (soup soup' : page) (acc : list RaceResult) (n : net server)
    (s' : server) :
  parse_results_table soup y <> [] -> next_link soup = true ->
  http_post y (next_form soup) (site n) = (Some soup', s') ->
  scrape_pages http_post (S left) y d soup acc n
  = scrape_pages http_post left y d soup'
      (acc ++ map (set_race_date d) (parse_results_table soup y))%list
      (mknet s' (S (fetches n))).
Proof.
  intros Hrows Hnext Hpost. simpl.
  destruct (parse_results_table soup y) as [|r rs] eqn:E; [congruence|].
  rewrite Hnext. simpl. unfold post. now rewrite Hpost.
Qed.

(** A page without a next link: its rows are added and the loop ends. *)
Lemma scrape_pages_last (left : nat) (y : Z) (d : option date)
    (soup : page) (acc : list RaceResult) (n : net server) :
  next_link soup = false ->
  scrape_pages http_post (S left) y d soup acc n
  = ((acc ++ map (set_race_date d) (parse_results_table soup y))%list, n).
Proof.
  intros Hnext. simpl.
  destruct (parse_results_table soup y) as [|r rs] eqn:E.
  - now rewrite app_nil_r.
  - now rewrite Hnext.
Qed.

Lemma scrape_year_three_pages (y : Z) (n : net server)
    (p1 p2 p3 : page) (s1 s2 s3 : server) :
  http_get y (site n) = (Some p1, s1) ->
  parse_results_table p1 y <> [] -> next_link p1 = true ->
  http_post y (next_form p1) s1 = (Some p2, s2) ->
  parse_results_table p2 y <> [] -> next_link p2 = true ->
  http_post y (next_form p2) s2 = (Some p3, s3) ->
  next_link p3 = false ->
  scrape_year http_get http_post get_race_date y n
  = (map (set_race_date (get_race_date p1))
       (parse_results_table p1 y ++ parse_results_table p2 y
        ++ parse_results_table p3 y)%list,
     mknet s3 (fetches n + 3)).
Proof.
  intros Hget Hr1 Hn1 Hpost1 Hr2 Hn2 Hpost2 Hn3.
  unfold scrape_year, get_page. rewrite Hget.
  unfold max_pages.
  erewrite scrape_pages_next by (simpl; eassumption).
  erewrite scrape_pages_next by (simpl; eassumption).
  rewrite scrape_pages_last by exact Hn3.
  simpl. rewrite !map_app, <- app_assoc.
  do 2 f_equal. lia.
Qed.
End CrawlFacts.

(** C5. When pages 1 and 2 of a year each give at least one row and
    carry the next link and page 3 does not carry it, the crawl sends
    exactly 3 requests and returns the rows of pages 1, 2 and 3 in
    order (each with the race date of page 1); and on a page that gives
    no row the loop stops where it is. *)
Theorem scrape_year_pagination :
  forall (server : Type)
         (http_get : Z -> server -> option page * server)
         (http_post : Z -> dict -> server -> option page * server)
         (get_race_date : page -> option date),
    (forall (y : Z) (n : net server) (p1 p2 p3 : page) (s1 s2 s3 : server),
        http_get y (site n) = (Some p1, s1) ->
        parse_results_table p1 y <> [] -> next_link p1 = true ->
        http_post y (next_form p1) s1 = (Some p2, s2) ->
        parse_results_table p2 y <> [] -> next_link p2 = true ->
        http_post y (next_form p2) s2 = (Some p3, s3) ->
        next_link p3 = false ->
        scrape_year http_get http_post get_race_date y n
        = (map (set_race_date (get_race_date p1))
             (parse_results_table p1 y ++ parse_results_table p2 y
              ++ parse_results_table p3 y)%list,
           mknet s3 (fetches n + 3))) /\
    (forall (left : nat) (y : Z) (d : option date) (soup : page)
            (acc : list RaceResult) (n : net server),
        parse_results_table soup y = [] ->
        scrape_pages http_post left y d soup acc n = (acc, n)).
Proof.
  intros server http_get http_post get_race_date. split.
  - apply scrape_year_three_pages.
  - apply scrape_pages_no_rows.
Qed.

(** A site of three pages: its state is the number of pages served. *)
Definition three_pages (k : nat) : page :=
  match k with
  | O => sample_page [sample_cells "1" "45:00.0"; sample_cells "2" "46:10.5"] true
  | S O => sample_page [sample_cells "3" "47:00"] true
  | _ => sample_page [sample_cells "4" "1:02:03.5"] false
  end.

Definition three_get (y : Z) (k : nat) : option page * nat :=
  (Some (three_pages k), S k).

Definition three_post (y : Z) (form : dict) (k : nat) : option page * nat :=
  (Some (three_pages k), S k).

Lemma scrape_year_pagination_witness :
  let out := scrape_year three_get three_post (fun _ => None) 2024%Z
               (mknet 0%nat 0%nat) in
  fetches (snd out) = 3%nat /\ map place (fst out) = [Some 1; Some 2; Some 3; Some 4]%Z.
Proof.
  destruct (scrape_year_pagination three_get three_post (fun _ => None))
    as [H _].
  cbv zeta.
  rewrite (H 2024%Z (mknet 0%nat 0%nat) (three_pages 0) (three_pages 1)
             (three_pages 2) 1%nat 2%nat 3%nat);
    try reflexivity; try discriminate.
  split; reflexivity.
Defined.

(** ** The race-window join *)

Import Weather.

(** The stamps inside the race window with their indices, counted from
    [i]. *)
Fixpoint selected (i : nat) (times : list datetime) : list (nat * datetime) :=
  match times with
  | [] => []
  | t :: ts =>
      if in_race_window t then (i, t) :: selected (S i) ts
      else selected (S i) ts
  end.

(** The entry of an array at an index; missing beyond its end. *)
Definition entry (a : list (option Q)) (i : nat) : option Q :=
  match nth_error a i with
  | Some v => v
  | None => None
  end.

Definition window_record (temps windspeeds winddirections wind_gusts : list (option Q))
    (it : nat * datetime) : WeatherRecord :=
  mkWeatherRecord (snd it) (entry temps (fst it)) (entry windspeeds (fst it))
    (entry winddirections (fst it)) (entry wind_gusts (fst it)) None None None.

(** Every text of the list is a stamp, read as the value beside it. *)
Definition stamps_read (stamps : list string) (times : list datetime) : Prop :=
  Forall2 (fun s t => fromisoformat s = Ok t) stamps times.

Lemma item_or_none_entry (a : list (option Q)) (i : nat) :
  item_or_none a i = Ok (entry a i).
Proof.
  unfold item_or_none, entry, getitem.
  destruct (i <? List.length a)%nat eqn:E.
  - apply Nat.ltb_lt in E. destruct (nth_error a i) eqn:En; [reflexivity|].
    apply nth_error_None in En. lia.
  - apply Nat.ltb_ge in E. apply nth_error_None in E. now rewrite E.
Qed.

Lemma entry_beyond (a : list (option Q)) (i : nat) :
  (List.length a <= i)%nat -> entry a i = None.
Proof. intros H. unfold entry. apply nth_error_None in H. now rewrite H. Qed.

Lemma selected_timestamps (i : nat) (times : list datetime) :
  map snd (selected i times) = filter in_race_window times.
Proof.
  revert i. induction times as [|t ts IH]; intros i; simpl; [reflexivity|].
  destruct (in_race_window t); simpl; now rewrite IH.
Qed.

Section WindowLoop.
Variables temps windspeeds winddirections wind_gusts : list (option Q).

Lemma window_loop_ok (stamps : list string) (times : list datetime) :
  stamps_read stamps times ->
  forall (i : nat) (records : list WeatherRecord),
    window_loop temps windspeeds winddirections wind_gusts i stamps records
    = Ok (records ++ map (window_record temps windspeeds winddirections wind_gusts)
                       (selected i times))%list.
Proof.
  induction 1 as [|s t stamps times Hs _ IH]; intros i records; simpl.
  - now rewrite app_nil_r.
  - rewrite Hs. simpl. destruct (in_race_window t).
    + rewrite !item_or_none_entry. simpl. rewrite IH, <- app_assoc.
      reflexivity.
    + apply IH.
Qed.

Lemma window_loop_read (stamps : list string) :
  forall (i : nat) (records out : list WeatherRecord),
    window_loop temps windspeeds winddirections wind_gusts i stamps records
    = Ok out ->
    exists times, stamps_read stamps times.
Proof.
  induction stamps as [|s stamps IH]; intros i records out; simpl.
  - exists []. constructor.
  - destruct (fromisoformat s) as [t|e] eqn:Es; [|discriminate]. simpl.
    destruct (in_race_window t).
    + rewrite !item_or_none_entry. simpl. intros H.
      destruct (IH _ _ _ H) as [times Ht].
      exists (t :: times). now constructor.
    + intros H. destruct (IH _ _ _ H) as [times Ht].
      exists (t :: times). now constructor.
Qed.
End WindowLoop.

Lemma fromisoformat_raises (s : string) (e : exn) :
  fromisoformat s = Raise e -> e = ValueError.
Proof.
  unfold fromisoformat.
  repeat match goal with
         | |- context [match ?x with _ => _ end] => destruct x
         end; congruence.
Qed.

Lemma stamps_read_or_not (stamps : list string) :
  (exists times, stamps_read stamps times) \/
  (forall temps windspeeds winddirections wind_gusts i records,
      window_loop temps windspeeds winddirections wind_gusts i stamps records
      = Raise ValueError).
Proof.
  induction stamps as [|s stamps IH].
  - left. exists []. constructor.
  - destruct (fromisoformat s) as [t|e] eqn:Es.
    + destruct IH as [[times Ht]|IH].
      * left. exists (t :: times). now constructor.
      * right. intros. simpl. rewrite Es. simpl.
        destruct (in_race_window t); [|apply IH].
        rewrite !item_or_none_entry. simpl. apply IH.
    + right. intros. simpl. rewrite Es. simpl.
      now rewrite (fromisoformat_raises _ Es).
Qed.

Lemma extract_read (h : hourly) (d : date) (y : Z) (times : list datetime) :
  stamps_read (get_or_empty (h_time h)) times ->
  extract_race_window_data (Some h) d y
  = Ok (map (window_record (get_or_empty (h_temperature_2m h))
               (get_or_empty (h_windspeed_10m h))
               (get_or_empty (h_winddirection_10m h))
               (get_or_empty (h_wind_gusts_10m h)))
          (selected 0 times)).
Proof.
  intros Ht. unfold extract_race_window_data.
  destruct (is_empty_dict h) eqn:E.
  - destruct h as [[ts|] ? ? ? ?]; simpl in E; try discriminate.
    simpl in Ht. inversion Ht. reflexivity.
  - now rewrite (window_loop_ok _ _ _ _ Ht).
Qed.

Definition tagged (y : Z) (d : date) (loc : string) (r : WeatherRecord) : Prop :=
  Weather.year r = Some y /\ Weather.race_date r = Some d /\
  location r = Some loc.

(** The stamp of hour [h] of 5 October 2025, as the provider writes it. *)
Definition stamp (h : nat) : string :=
  "2025-10-05T"
  ++ String (ascii_of_nat (48 + h / 10))
       (String (ascii_of_nat (48 + h mod 10)) ":00").

(** One day of hourly data: 24 stamps and 24 values per variable. *)
Definition one_day : hourly :=
  let values := map (fun h => Some (inject_Z (Z.of_nat h))) (seq 0 24) in
  mkhourly (Some (map stamp (seq 0 24))) (Some values) (Some values)
    (Some values) (Some values).

Definition one_day_api (latitude longitude : Q) (d : date) : option hourly :=
  Some one_day.

(** C6. For hourly data whose stamps are read, a race date and a
    location of the fetcher, the window join returns one record per
    stamp whose hour lies in [RACE_START_HOUR, RACE_END_HOUR], in the
    order of the stamps, each tagged with the year, the race date and
    the location.  With the 24 hours of one day and the window [7, 11]
    it returns 5 records, for the hours 7, 8, 9, 10, 11. *)
Theorem race_window_join :
  (forall (api : Q -> Q -> date -> option hourly) (y : Z) (d : date)
          (loc : string) (latitude longitude : Q) (h : hourly)
          (times : list datetime),
      lookup loc locations = Some (latitude, longitude) ->
      api latitude longitude d = Some h ->
      stamps_read (get_or_empty (h_time h)) times ->
      exists recs,
        fetch_weather_for_race api y (DateObj d) loc = Ok recs /\
        map timestamp recs = filter in_race_window times /\
        Forall (tagged y d loc) recs) /\
  (Config.RACE_START_HOUR = 7%nat /\ Config.RACE_END_HOUR = 11%nat /\
   exists recs,
     fetch_weather_for_race one_day_api 2025 (DateObj (mkdate 2025 10 5)) "summit"
     = Ok recs /\
     List.length recs = 5%nat /\
     map (fun r => hour (timestamp r)) recs = [7; 8; 9; 10; 11]%nat /\
     Forall (tagged 2025 (mkdate 2025 10 5) "summit") recs).
Proof.
  split.
  - intros api y d loc latitude longitude h times Hloc Hapi Ht.
    unfold fetch_weather_for_race, fetch_weather_for_date.
    rewrite Hloc, Hapi.
    destruct (is_empty_dict h) eqn:E.
    + destruct h as [[ts|] ? ? ? ?]; simpl in E; try discriminate.
      simpl in Ht. inversion Ht. exists []. simpl. auto.
    + rewrite (extract_read _ d y Ht). simpl.
      eexists. split; [reflexivity|]. split.
      * rewrite !map_map. simpl.
        rewrite <- selected_timestamps with (i := 0%nat).
        reflexivity.
      * apply Forall_forall. intros r Hr. apply in_map_iff in Hr as (r0 & <- & _).
        repeat split.
  - split; [reflexivity|]. split; [reflexivity|].
    eexists. split; [vm_compute; reflexivity|].
    split; [reflexivity|]. split; [reflexivity|].
    repeat constructor.
Qed.

Lemma race_window_join_witness :
  exists recs,
    fetch_weather_for_race one_day_api 2025 (DateObj (mkdate 2025 10 5)) "start"
    = Ok recs /\
    map timestamp recs
    = filter in_race_window
        (map (fun h => mkdatetime (mkdate 2025 10 5) h 0 0) (seq 0 24)) /\
    Forall (tagged 2025 (mkdate 2025 10 5) "start") recs.
Proof.
  destruct race_window_join as [H _].
  apply (H one_day_api 2025%Z (mkdate 2025 10 5) "start"
           Config.START_LATITUDE Config.START_LONGITUDE one_day).
  - reflexivity.
  - reflexivity.
  - unfold stamps_read. simpl. repeat constructor.
Defined.

(** C9. The window join never raises an index error, whatever the
    lengths of the variable arrays: when the stamps are read it returns,
    and in the record of a selected stamp every variable whose array
    ends at or before the stamp's index is missing. *)
Theorem race_window_short_arrays :
  forall (hourly_data : option hourly) (d : date) (y : Z),
    extract_race_window_data hourly_data d y <> Raise IndexError /\
    (forall (h : hourly) (times : list datetime),
        hourly_data = Some h ->
        stamps_read (get_or_empty (h_time h)) times ->
        exists recs,
          extract_race_window_data hourly_data d y = Ok recs /\
          Forall2
            (fun it r =>
               timestamp r = snd it /\
               ((List.length (get_or_empty (h_temperature_2m h)) <= fst it)%nat ->
                temperature_2m r = None) /\
               ((List.length (get_or_empty (h_windspeed_10m h)) <= fst it)%nat ->
                windspeed_10m r = None) /\
               ((List.length (get_or_empty (h_winddirection_10m h)) <= fst it)%nat ->
                winddirection_10m r = None) /\
               ((List.length (get_or_empty (h_wind_gusts_10m h)) <= fst it)%nat ->
                wind_gusts_10m r = None))
            (selected 0 times) recs).
Proof.
  intros hourly_data d y. split.
  - destruct hourly_data as [h|]; simpl; [|discriminate].
    destruct (is_empty_dict h); [discriminate|].
    destruct (stamps_read_or_not (get_or_empty (h_time h))) as [[times Ht]|Hv].
    + now rewrite (window_loop_ok _ _ _ _ Ht).
    + now rewrite Hv.
  - intros h times -> Ht. rewrite (extract_read _ d y Ht).
    eexists. split; [reflexivity|].
    induction (selected 0 times) as [|it l IH]; simpl; constructor; [|exact IH].
    simpl. repeat split; apply entry_beyond.
Qed.

(** Six hours from 06:00 with a temperature array of three entries and
    no gust array. *)
Definition short_day : hourly :=
  mkhourly (Some (map stamp (seq 6 6)))
    (Some [Some 50; Some 51; Some 52]) (Some []) (Some [None]) None.

Lemma race_window_short_arrays_witness :
  extract_race_window_data (Some short_day) (mkdate 2025 10 5) 2025
  = Ok (map (fun h => mkWeatherRecord (mkdatetime (mkdate 2025 10 5) h 0 0)
                        (if (h <=? 8)%nat then Some (inject_Z (Z.of_nat h) + 44) else None)
                        None None None None None None)
          (seq 7 5)).
Proof.
  destruct (race_window_short_arrays (Some short_day) (mkdate 2025 10 5) 2025)
    as [_ H].
  destruct (H short_day
              (map (fun h => mkdatetime (mkdate 2025 10 5) h 0 0) (seq 6 6))
              eq_refl)
    as (recs & E & _).
  - unfold stamps_read. simpl. repeat constructor.
  - reflexivity.
Defined.

(** ** The store: replace by year *)

Import Database.

Lemma filter_filter (A : Type) (f g : A -> bool) (l : list A) :
  filter f (filter g l) = filter (fun x => g x && f x) l.
Proof.
  induction l as [|x l IH]; simpl; [reflexivity|].
  destruct (g x); simpl; [destruct (f x)|]; now rewrite IH.
Qed.

Lemma filter_none (A : Type) (f : A -> bool) (l : list A) :
  filter f l = [] -> filter (fun x => negb (f x)) l = l.
Proof.
  induction l as [|x l IH]; simpl; [reflexivity|].
  destruct (f x); simpl; [discriminate|]. intros H. now rewrite IH.
Qed.

(** The rows a batch inserts: each with the next [id] after [seq]. *)
Fixpoint numbered (A : Type) (seq : Z) (rs : list A) : list (row A) :=
  match rs with
  | [] => []
  | r :: rs' => mkrow (seq + 1) r :: numbered (seq + 1) rs'
  end.


Lemma filter_numbered (A : Type) (p : A -> bool) (seq : Z) (rs : list A) :
  map (@cols A) (filter (fun r => p (cols r)) (numbered seq rs)) = filter p rs.
Proof.
  revert seq. induction rs as [|r rs IH]; intros seq; simpl; [reflexivity|].
  destruct (p r); simpl; now rewrite IH.
Qed.

(** The stored race results of one year. *)
Definition rows_of_year (y : Z) (d : db) : list (row Scraper.RaceResult) :=
  filter (result_year_is y) (race_results d).


(** No year of the list is the row's year. *)
Definition untouched (years : list Z) (r : row Scraper.RaceResult) : bool :=
  negb (existsb (fun y => result_year_is y r) years).

Lemma delete_absent_year (y : Z) (d : db) :
  year_exists d y = false -> delete_race_results y d = d.
Proof.
  unfold year_exists, delete_race_results. intros H.
  destruct (filter (result_year_is y) (race_results d)) eqn:E;
    [|discriminate H].
  rewrite (filter_none _ _ E). now destruct d.
Qed.

Lemma replace_race_years_spec (years : list Z) (d : db) :
  replace_race_years years d
  = mkdb (filter (untouched years) (race_results d)) (race_results_seq d)
         (weather_data d) (weather_data_seq d).
Proof.
  revert d. induction years as [|y years IH]; intros d.
  - unfold replace_race_years, untouched. simpl.
    rewrite filter_true. now destruct d.
  - unfold replace_race_years in *. simpl.
    assert (E : (if year_exists d y then delete_race_results y d else d)
                = delete_race_results y d).
    { destruct (year_exists d y) eqn:Ey;
        [reflexivity|now rewrite delete_absent_year]. }
    rewrite E, IH. simpl. rewrite filter_filter. f_equal.
    apply filter_ext. intros r. unfold untouched. simpl.
    now rewrite negb_orb.
Qed.


Lemma for_each_insert_some (results : list Scraper.RaceResult) (d : db) :
  exists inserted,
    incl inserted results /\
    fst (for_each insert_result results d)
    = mkdb (race_results d ++ numbered (race_results_seq d) inserted)
           (race_results_seq d + Z.of_nat (List.length inserted))
           (weather_data d) (weather_data_seq d).
Proof.
  revert d. induction results as [|r results IH]; intros d.
  - exists []. split; [apply incl_refl|]. simpl.
    rewrite app_nil_r, Z.add_0_r. now destruct d.
  - cbn [for_each]. unfold insert_result.
    destruct (Scraper.year r) as [y|] eqn:Ey.
    + match goal with
      | |- context [for_each _ results ?d1] =>
          destruct (IH d1) as (inserted & Hin & E)
      end.
      exists (r :: inserted). split.
      * intros x [<-|Hx]; [now left|right; now apply Hin].
      * unfold insert_result in E. rewrite E.
        cbn [race_results race_results_seq weather_data weather_data_seq
               numbered List.length].
        rewrite <- app_assoc, Nat2Z.inj_succ. cbn [app fst].
        f_equal. lia.
    + exists []. split; [intros x []|]. simpl.
      rewrite app_nil_r, Z.add_0_r. now destruct d.
Qed.

Lemma in_years_to_replace (A : Type) (year_of : A -> option Z)
    (rows : list A) (y : Z) :
  In y (years_to_replace year_of rows) <->
  y <> 0%Z /\ In (Some y) (map year_of rows).
Proof.
  unfold years_to_replace. rewrite nodup_In, in_flat_map. split.
  - intros (r & Hr & Hy). unfold truthy_year in Hy.
    destruct (year_of r) as [v|] eqn:Ev; [|destruct Hy].
    destruct (Z.eqb_spec v 0); [destruct Hy|].
    destruct Hy as [<-|[]]. split; [assumption|].
    rewrite <- Ev. now apply in_map.
  - intros (Hy & Hin). apply in_map_iff in Hin as (r & Er & Hr).
    exists r. split; [assumption|]. unfold truthy_year. rewrite Er.
    destruct (Z.eqb_spec y 0); [contradiction|now left].
Qed.

Lemma existsb_year (years : list Z) (r : row Scraper.RaceResult) (y : Z) :
  result_year_is y r = true ->
  existsb (fun y' => result_year_is y' r) years = true <-> In y years.
Proof.
  unfold result_year_is, sql_eq. destruct (Scraper.year (cols r)) as [v|];
    [|discriminate].
  intros E. apply Z.eqb_eq in E. subst v. rewrite existsb_exists. split.
  - intros (y' & Hin & E). apply Z.eqb_eq in E. now subst y'.
  - intros Hin. exists y. split; [assumption|apply Z.eqb_refl].
Qed.



(** A result row of a year with a chip time in whole seconds. *)
Definition result_of (y : Z) (seconds : Z) : Scraper.RaceResult :=
  Scraper.mkRaceResult (Some y) None None "A Rider" "" "" "" "" None ""
    "" (Some (mkfin (inject_Z seconds))) "" "".




(** C10. Whatever the batch and the replace flag, the stored race
    results of a year that no row of the batch carries are the same rows
    after insert_race_results as before: none deleted, none changed,
    none added.  A stored row is kept whenever its year is not a year of
    the batch, and the weather table is not touched. *)
Theorem insert_race_results_frame :
  forall (results : list Scraper.RaceResult) (replace_existing : bool) (d : db),
    let d' := fst (insert_race_results results replace_existing d) in
    (forall y : Z,
        ~ In (Some y) (map Scraper.year results) ->
        rows_of_year y d' = rows_of_year y d) /\
    (forall r : row Scraper.RaceResult,
        In r (race_results d) ->
        ~ In (Scraper.year (cols r)) (map Scraper.year results) ->
        In r (race_results d')) /\
    weather_data d' = weather_data d.
Proof.
  intros results replace_existing d d'.
  assert (Hshape : exists years inserted,
             (forall y, In y years -> In (Some y) (map Scraper.year results)) /\
             incl inserted results /\
             race_results d'
             = (filter (untouched years) (race_results d)
                ++ numbered (race_results_seq d) inserted)%list /\
             weather_data d' = weather_data d).
  { subst d'. unfold insert_race_results.
    destruct (replace_existing && non_empty results).
    - destruct (for_each_insert_some results
                  (replace_race_years (years_to_replace Scraper.year results) d))
        as (inserted & Hin & E).
      exists (years_to_replace Scraper.year results), inserted.
      rewrite E, replace_race_years_spec. simpl.
      repeat split; try assumption.
      intros y Hy. now apply in_years_to_replace in Hy.
    - destruct (for_each_insert_some results d) as (inserted & Hin & E).
      exists [], inserted. rewrite E. simpl. unfold untouched. simpl.
      rewrite filter_true. repeat split; try assumption. intros y []. }
  destruct Hshape as (years & inserted & Hyears & Hincl & Er & Ew).
  split; [|split]; [| |exact Ew].
  - intros y Hy. unfold rows_of_year. rewrite Er, filter_app, filter_filter.
    assert (E1 : filter (result_year_is y) (numbered (race_results_seq d) inserted)
                 = []).
    { apply (map_eq_nil (@cols _)).
      rewrite (filter_numbered (fun c => sql_eq (Scraper.year c) y)).
      rewrite <- (filter_false inserted). apply filter_ext_in.
      intros c Hc. unfold sql_eq.
      destruct (Scraper.year c) as [v|] eqn:Ev; [|reflexivity].
      destruct (Z.eqb_spec v y) as [->|]; [|reflexivity].
      destruct Hy. rewrite <- Ev. apply in_map. now apply Hincl. }
    rewrite E1, app_nil_r. apply filter_ext. intros r.
    destruct (result_year_is y r) eqn:Ey; [|apply andb_false_r].
    rewrite andb_true_r. unfold untouched.
    destruct (existsb (fun y' => result_year_is y' r) years) eqn:Ex;
      [|reflexivity].
    apply (@existsb_year _ _ _ Ey) in Ex. destruct Hy. now apply Hyears.
  - intros r Hr Hy. rewrite Er. apply in_or_app. left.
    apply filter_In. split; [assumption|]. unfold untouched.
    destruct (existsb (fun y' => result_year_is y' r) years) eqn:Ex;
      [|reflexivity].
    apply existsb_exists in Ex as (y' & Hin & Ey').
    unfold result_year_is, sql_eq in Ey'.
    destruct (Scraper.year (cols r)) as [v|]; [|discriminate].
    apply Z.eqb_eq in Ey'. subst v. destruct Hy. now apply Hyears.
Qed.

Lemma insert_race_results_frame_witness :
  let d0 := fst (insert_race_results [result_of 2023 2800; result_of 2024 3000]
                   false empty_db) in
  rows_of_year 2023
    (fst (insert_race_results [result_of 2024 2700; result_of 0 1] true d0))
  = [mkrow 1 (result_of 2023 2800)].
Proof.
  destruct (insert_race_results_frame [result_of 2024 2700; result_of 0 1] true
              (fst (insert_race_results
                      [result_of 2023 2800; result_of 2024 3000] false empty_db)))
    as (H & _ & _).
  cbv zeta. rewrite (H 2023%Z).
  - reflexivity.
  - simpl. intros [E|[E|[]]]; discriminate E.
Defined.

(** ** The store: weather rows *)

(** The stored weather rows of one year. *)
Definition weather_of_year (y : Z) (d : db) : list (row WeatherRecord) :=
  filter (weather_year_is y) (weather_data d).

(** A weather record of a year at an hour of 5 October. *)
Definition weather_of (y : Z) (h : nat) : WeatherRecord :=
  mkWeatherRecord (mkdatetime (mkdate (Z.to_nat y) 10 5) h 0 0)
    (Some 60) (Some 5) (Some 270) (Some 9)
    (Some y) (Some (mkdate (Z.to_nat y) 10 5)) (Some "start").

(** C4, at the failing input. The replace step of insert_weather_data
    asks [year_exists], which counts race results, whether to delete
    weather rows.  With no race result stored for 2024, ingesting the
    same weather batch twice with replace_existing true stores its rows
    twice; with a race result of 2024 stored, the second ingestion
    replaces the first. *)
Theorem insert_weather_data_duplicates :
  let batch := [weather_of 2024 7; weather_of 2024 8] in
  let d1 := fst (insert_weather_data batch true empty_db) in
  let d2 := fst (insert_weather_data batch true d1) in
  let e0 := fst (insert_race_results [result_of 2024 2700] false empty_db) in
  let e1 := fst (insert_weather_data batch true e0) in
  let e2 := fst (insert_weather_data batch true e1) in
  year_exists d1 2024 = false /\
  List.length (weather_of_year 2024 d1) = 2%nat /\
  List.length (weather_of_year 2024 d2) = 4%nat /\
  snd (insert_weather_data batch true d1) = Ok tt /\
  List.length (weather_of_year 2024 e1) = 2%nat /\
  List.length (weather_of_year 2024 e2) = 2%nat.
Proof. cbv zeta. repeat split; vm_compute; reflexivity. Qed.

(** ** Percentiles: the store and the analysis *)

Import Analysis.

(** The year 2024 with the chip times 100, 200, 300, 400. *)
Definition four_times : db :=
  fst (insert_race_results
         [result_of 2024 300; result_of 2024 100; result_of 2024 400;
          result_of 2024 200] false empty_db).

(** C2, at the failing input. For the chip times 100, 200, 300, 400 the
    store's get_percentiles_by_year takes the order statistic at index
    floor(n * p / 100) and answers 200, 300, 400, while the quantiles of
    the analysis interpolate and give 175, 250, 325. *)
Theorem percentiles_disagree :
  get_percentiles_by_year four_times 2024 default_percentiles
  = Ok [(25, Fin 200); (50, Fin 300); (75, Fin 400)]%Z /\
  map (fun s => (st_year s, st_count s, st_p25 s, st_median s, st_p75 s))
    (calculate_yearly_statistics four_times)
  = [(2024%Z, 4%nat, Some (Fin 175), Some (Fin 250), Some (Fin 325))] /\
  map (fun s => (st_min s, st_max s)) (calculate_yearly_statistics four_times)
  = [(Some (Fin 100), Some (Fin 400))].
Proof. repeat split; vm_compute; reflexivity. Qed.

(** ** The correlation *)

Import Dashboard.
Local Open Scope R_scope.













(** Rounding to the nearest integer moves by at most one half. *)
Lemma rint_near (r : R) : Rabs (IZR (rint r) - r) <= 1 / 2.
Proof.
  unfold rint. pose proof (Zfloor_bound r) as [Hlo Hhi].
  destruct (Rlt_dec (r - IZR (Zfloor r)) (1 / 2)) as [H1|H1].
  - apply Rabs_le. lra.
  - assert (Hup : Rabs (IZR (Zfloor r + 1) - r) <= 1 / 2).
    { rewrite plus_IZR. apply Rabs_le. simpl. lra. }
    destruct (Rlt_dec (1 / 2) (r - IZR (Zfloor r))) as [H2|H2];
      [exact Hup|].
    destruct (Z.even (Zfloor r)); [apply Rabs_le; lra|exact Hup].
Qed.




(** Series in a linear relation. *)














(* ===================================================================== *)
(** * Further properties of the scraper *)
(* ===================================================================== *)

Local Open Scope string_scope.
Local Close Scope R_scope.

Lemma all_chars_impl (p q : ascii -> bool) (s : string) :
  (forall c, p c = true -> q c = true) ->
  all_chars p s = true -> all_chars q s = true.
Proof.
  intros Hpq. induction s as [|c s IH]; simpl; [reflexivity|].
  intros H. apply andb_true_iff in H as [Hc Hs].
  now rewrite (Hpq c Hc), IH.
Qed.

Lemma digit_char_not_minus (c : ascii) :
  is_digit_char c = true -> not_minus c = true.
Proof.
  unfold is_digit_char, is_ascii_digit, between, not_minus.
  destruct (code c =? 45)%nat eqn:E; [|reflexivity].
  apply Nat.eqb_eq in E. rewrite E. discriminate.
Qed.

Lemma int_if_digit_nonneg (s : string) (n : Z) :
  int_if_digit s = Ok (Some n) -> (0 <= n)%Z.
Proof.
  unfold int_if_digit. destruct (isdigit s) eqn:Ed; [|discriminate].
  intros H. apply bind_Ok in H as (m & Em & H). injection H as <-.
  unfold isdigit in Ed. apply andb_true_iff in Ed as [_ Ed].
  apply (@int_no_minus s m); [|assumption].
  eapply all_chars_impl; [exact digit_char_not_minus|exact Ed].
Qed.

Lemma cell_value (cells : list string) (i : nat) (v : string) :
  cell cells i = Ok v -> exists c, nth_error cells i = Some c /\ v = strip c.
Proof.
  unfold cell, getitem. destruct (nth_error cells i) as [c|]; simpl;
    [|discriminate].
  intros H. injection H as <-. eauto.
Qed.

(** The text of cell [i] of a row, stripped; empty when there is no
    such cell. *)
Definition cell_text (cells : list string) (i : nat) : string :=
  strip (nth i cells "").

Lemma cell_value_text (cells : list string) (i : nat) (v : string) :
  cell cells i = Ok v -> v = cell_text cells i.
Proof.
  intros H. apply cell_value in H as (c & Hc & ->). unfold cell_text.
  now rewrite (nth_error_nth _ _ _ Hc).
Qed.

Lemma parse_row_fields (y : Z) (cells : list string) (r : RaceResult) :
  parse_row y cells = Ok r ->
  Scraper.year r = Some y /\ Scraper.race_date r = None /\
  name r = cell_text cells 1 /\ team r = cell_text cells 2 /\
  city_state r = cell_text cells 3 /\ gender r = cell_text cells 4 /\
  gender_place r = cell_text cells 5 /\ age_place r = cell_text cells 7 /\
  chip_time_str r = cell_text cells 9 /\ pace r = cell_text cells 10 /\
  start_time r = cell_text cells 12 /\
  (forall n, place r = Some n -> (0 <= n)%Z) /\
  (forall n, age r = Some n -> (0 <= n)%Z) /\
  (place r = None -> isdigit (cell_text cells 0) = false) /\
  (age r = None -> isdigit (cell_text cells 6) = false).
Proof.
  unfold parse_row. intros H. invert_binds H. injection H as <-. simpl.
  repeat match goal with
         | E : cell _ _ = Ok _ |- _ => apply cell_value_text in E; subst
         end.
  repeat split; try reflexivity.
  - intros n ->. eapply int_if_digit_nonneg; eassumption.
  - intros n ->. eapply int_if_digit_nonneg; eassumption.
  - intros ->. unfold int_if_digit in *.
    destruct (isdigit (cell_text cells 0)); [|reflexivity].
    match goal with
    | E : bind _ _ = Ok None |- _ =>
        apply bind_Ok in E as (? & _ & E); discriminate E
    end.
  - intros ->. unfold int_if_digit in *.
    destruct (isdigit (cell_text cells 6)); [|reflexivity].
    match goal with
    | E : bind _ _ = Ok None |- _ =>
        apply bind_Ok in E as (? & _ & E); discriminate E
    end.
Qed.

Lemma parse_rows_In_long (y : Z) (rows : list (list string)) (r : RaceResult) :
  In r (parse_rows y rows) ->
  exists cells,
    In cells rows /\ (13 <= List.length cells)%nat /\ parse_row y cells = Ok r.
Proof.
  induction rows as [|cells rows IH]; simpl; [tauto|].
  destruct (List.length cells <? 13)%nat eqn:El.
  - intros H. destruct (IH H) as (c & Hc & Hr). eauto.
  - apply Nat.ltb_ge in El. destruct (parse_row y cells) as [r0|e] eqn:E.
    + intros [<-|H]; [eauto|]. destruct (IH H) as (c & Hc & Hr). eauto.
    + intros H. destruct (IH H) as (c & Hc & Hr). eauto.
Qed.

(** The data rows of a page: the rows of the results table after the
    header; none without the table. *)
Definition data_rows (soup : page) : list (list string) :=
  match results_table soup with
  | None => []
  | Some trs => tl trs
  end.

(** X1. Every result of the page parser comes from a data row of at
    least 13 cells: it carries the year asked for and no race date yet,
    its text fields are the stripped cells at the fixed positions, and
    place and age are non-negative integers when present and absent
    only when their cell is not made of digits. *)
Theorem parse_results_table_rows :
  forall (soup : page) (y : Z) (r : RaceResult),
    In r (parse_results_table soup y) ->
    exists cells,
      In cells (data_rows soup) /\ (13 <= List.length cells)%nat /\
      Scraper.year r = Some y /\ Scraper.race_date r = None /\
      name r = cell_text cells 1 /\ chip_time_str r = cell_text cells 9 /\
      start_time r = cell_text cells 12 /\
      (forall n, place r = Some n -> (0 <= n)%Z) /\
      (forall n, age r = Some n -> (0 <= n)%Z) /\
      (place r = None -> isdigit (cell_text cells 0) = false) /\
      (age r = None -> isdigit (cell_text cells 6) = false).
Proof.
  intros soup y r. unfold parse_results_table, data_rows.
  destruct (results_table soup) as [trs|]; [|intros []].
  intros H. apply parse_rows_In_long in H as (cells & Hin & Hlen & Hr).
  exists cells. apply parse_row_fields in Hr.
  repeat split; try tauto; apply Hr.
Qed.

Lemma parse_results_table_rows_witness :
  exists cells,
    In cells [sample_cells "x7" "47:00"] /\ (13 <= List.length cells)%nat /\
    Some 2024%Z = Some 2024%Z /\ @None date = None /\
    "A Rider" = cell_text cells 1 /\ "47:00" = cell_text cells 9 /\
    "8:00 AM" = cell_text cells 12 /\
    (forall n, @None Z = Some n -> (0 <= n)%Z) /\
    (forall n, Some 30%Z = Some n -> (0 <= n)%Z) /\
    (@None Z = None -> isdigit (cell_text cells 0) = false) /\
    (Some 30%Z = None -> isdigit (cell_text cells 6) = false).
Proof.
  apply (parse_results_table_rows
           (sample_page [sample_cells "x7" "47:00"] false) 2024%Z
           (mkRaceResult (Some 2024%Z) None None "A Rider" "Team"
              "Town, CA" "M" "1" (Some 30%Z) "1 / 10" "47:00"
              (Some (Fin 2820)) "4:00/mile" "8:00 AM")).
  left. reflexivity.
Defined.

Lemma parse_rows_length (y : Z) (rows : list (list string)) :
  (List.length (parse_rows y rows)
   <= List.length (filter (fun cells => 13 <=? List.length cells)%nat rows))%nat.
Proof.
  induction rows as [|cells rows IH]; [simpl; lia|].
  cbn [parse_rows filter].
  destruct (Nat.ltb_spec (List.length cells) 13) as [Hl|Hl].
  - destruct (Nat.leb_spec 13 (List.length cells)); [lia|exact IH].
  - destruct (Nat.leb_spec 13 (List.length cells)); [|lia].
    destruct (parse_row y cells); cbn [List.length]; lia.
Qed.

(** The page parser gives at most one result per data row of at least
    13 cells: the header row and the shorter rows give none, and a page
    without the results table gives none. *)
Lemma parse_results_table_length :
  forall (soup : page) (y : Z),
    (List.length (parse_results_table soup y)
     <= List.length
          (filter (fun cells => 13 <=? List.length cells)%nat (data_rows soup)))%nat.
Proof.
  intros soup y. unfold parse_results_table, data_rows.
  destruct (results_table soup) as [trs|]; [apply parse_rows_length|simpl; lia].
Qed.

(** Digit text that [int] reads. *)















(** ** The form posted for the next page *)

(** [d.get(k)] on a dict in insertion order. *)
Definition dict_get (k : string) (d : dict) : option string :=
  Weather.lookup k d.

Lemma dict_get_set (k k' v : string) (d : dict) :
  dict_get k (dict_set k' v d)
  = if String.eqb k' k then Some v else dict_get k d.
Proof.
  unfold dict_get. induction d as [|[k0 v0] d IH]; simpl.
  - reflexivity.
  - destruct (String.eqb_spec k0 k') as [->|Hne]; simpl.
    + destruct (String.eqb k' k); reflexivity.
    + rewrite IH. destruct (String.eqb_spec k0 k) as [->|Hne'];
        [|reflexivity].
      destruct (String.eqb_spec k' k) as [->|_]; [congruence|reflexivity].
Qed.

Lemma dict_set_keys (k v : string) (d : dict) :
  NoDup (map fst d) -> NoDup (map fst (dict_set k v d)) /\
  (forall k0, In k0 (map fst (dict_set k v d)) <-> k0 = k \/ In k0 (map fst d)).
Proof.
  induction d as [|[k0 v0] d IH]; simpl; intros Hd.
  - split; [repeat constructor; intros []|]. intros k1. intuition.
  - inversion Hd as [|? ? Hnot Hd']; subst.
    destruct (String.eqb_spec k0 k) as [->|Hne]; simpl.
    + split; [assumption|]. intros k1. intuition.
    + destruct (IH Hd') as [Hnd Hin]. split.
      * constructor; [|assumption]. rewrite Hin. intros [E|E]; congruence.
      * intros k1. rewrite Hin. intuition.
Qed.

(** The value sent for a name by the inputs of a page: that of the last
    input with the name, empty when the input has no value. *)
Fixpoint last_input (k : string) (inputs : list (option string * option string))
  : option string :=
  match inputs with
  | [] => None
  | (name, value) :: rest =>
      match last_input k rest with
      | Some v => Some v
      | None =>
          match name with
          | Some n => if String.eqb n k
                      then Some (match value with Some v => v | None => "" end)
                      else None
          | None => None
          end
      end
  end.

Definition viewstate_step (form_data : dict) (inp : option string * option string)
  : dict :=
  let value := match snd inp with Some v => v | None => "" end in
  match fst inp with
  | Some name => if is_empty name then form_data
                 else dict_set name value form_data
  | None => form_data
  end.

Lemma viewstate_fold (k : string) (inps : list (option string * option string))
    (acc : dict) :
  is_empty k = false ->
  dict_get k (fold_left viewstate_step inps acc)
  = match last_input k inps with
    | Some v => Some v
    | None => dict_get k acc
    end.
Proof.
  intros Hk. revert acc. induction inps as [|[name value] inps IH];
    intros acc; simpl; [reflexivity|].
  rewrite IH. destruct (last_input k inps) as [v|]; [reflexivity|].
  unfold viewstate_step. simpl. destruct name as [n|]; [|reflexivity].
  destruct (is_empty n) eqn:En.
  - apply is_empty_true in En. subst n.
    destruct (String.eqb_spec "" k) as [<-|_]; [discriminate Hk|reflexivity].
  - rewrite dict_get_set. now destruct (String.eqb n k).
Qed.

Lemma viewstate_keys (inps : list (option string * option string)) (acc : dict) :
  NoDup (map fst acc) -> NoDup (map fst (fold_left viewstate_step inps acc)).
Proof.
  revert acc. induction inps as [|inp inps IH]; intros acc Hacc; simpl;
    [assumption|].
  apply IH. unfold viewstate_step. destruct (fst inp) as [n|]; [|assumption].
  destruct (is_empty n); [assumption|]. now apply dict_set_keys.
Qed.

(** X3. The form posted for the next page holds each name once. It
    sends the two control fields, the event target of the next button
    and an empty event argument, whatever the page holds under those
    names; under every other non-empty name it sends the value of the
    last input of the page with that name, and nothing for a name that
    no input has. *)
Theorem next_form_fields :
  forall (soup : page),
    NoDup (map fst (next_form soup)) /\
    dict_get "__EVENTTARGET" (next_form soup)
    = Some "ctl00$ContentPlaceHolder1$btnNext" /\
    dict_get "__EVENTARGUMENT" (next_form soup) = Some "" /\
    (forall k : string,
        is_empty k = false -> k <> "__EVENTTARGET" -> k <> "__EVENTARGUMENT" ->
        dict_get k (next_form soup) = last_input k (inputs soup)).
Proof.
  intros soup. unfold next_form, extract_viewstate.
  change (fun form_data inp => _) with viewstate_step.
  assert (Hnd : NoDup (map fst (fold_left viewstate_step (inputs soup) [])))
    by (apply viewstate_keys; constructor).
  split; [|split; [|split]].
  - apply dict_set_keys. now apply dict_set_keys.
  - rewrite !dict_get_set. reflexivity.
  - rewrite dict_get_set. reflexivity.
  - intros k Hk H1 H2. rewrite !dict_get_set.
    destruct (String.eqb_spec "__EVENTARGUMENT" k); [congruence|].
    destruct (String.eqb_spec "__EVENTTARGET" k); [congruence|].
    rewrite viewstate_fold by assumption.
    now destruct (last_input k (inputs soup)).
Qed.

Lemma next_form_fields_witness :
  dict_get "__VIEWSTATE"
    (next_form (mkpage None true
                  [(Some "__VIEWSTATE", Some "old"); (Some "__EVENTTARGET", Some "x");
                   (Some "__VIEWSTATE", Some "abc"); (None, Some "y")]))
  = Some "abc".
Proof.
  destruct (next_form_fields
              (mkpage None true
                 [(Some "__VIEWSTATE", Some "old"); (Some "__EVENTTARGET", Some "x");
                  (Some "__VIEWSTATE", Some "abc"); (None, Some "y")]))
    as (_ & _ & _ & H).
  rewrite H; [reflexivity|reflexivity|discriminate|discriminate].
Defined.

(** ** The crawl of a year and of all years *)

Section CrawlBounds.
Variable server : Type.
Variable http_get : Z -> server -> option page * server.
Variable http_post : Z -> dict -> server -> option page * server.
Variable get_race_date : page -> option date.

Lemma post_fetches (y : Z) (form : dict) (n : net server) :
  fetches (snd (post http_post y form n)) = S (fetches n).
Proof. unfold post. now destruct (http_post y form (site n)). Qed.

Lemma scrape_pages_fetches (left : nat) (y : Z) (d : option date)
    (soup : page) (acc : list RaceResult) (n : net server) :
  (fetches n <= fetches (snd (scrape_pages http_post left y d soup acc n))
   <= fetches n + left)%nat.
Proof.
  revert soup acc n. induction left as [|left IH]; intros soup acc n;
    cbn [scrape_pages]; [simpl; lia|].
  destruct (parse_results_table soup y) as [|r rs]; [simpl; lia|].
  destruct (negb (next_link soup)); [simpl; lia|].
  pose proof (post_fetches y (next_form soup) n) as Hp.
  destruct (post http_post y (next_form soup) n) as [[soup'|] n'];
    simpl in Hp.
  - specialize (IH soup'
                  (acc ++ map (set_race_date d) (r :: rs))%list n'). lia.
  - simpl. lia.
Qed.

Lemma scrape_pages_prefix (left : nat) (y : Z) (d : option date)
    (soup : page) (acc : list RaceResult) (n : net server) :
  exists more,
    fst (scrape_pages http_post left y d soup acc n) = (acc ++ more)%list /\
    Forall (fun r => Scraper.year r = Some y /\ Scraper.race_date r = d) more.
Proof.
  revert soup acc n. induction left as [|left IH]; intros soup acc n;
    cbn [scrape_pages].
  - exists []. split; [now rewrite app_nil_r|constructor].
  - assert (Hrows : Forall (fun r => Scraper.year r = Some y
                                     /\ Scraper.race_date r = d)
                      (map (set_race_date d) (parse_results_table soup y))).
    { apply Forall_forall. intros r Hr. apply in_map_iff in Hr as (r0 & <- & Hr0).
      apply parse_results_table_rows in Hr0 as (c & _ & _ & Hy & _).
      simpl. auto. }
    destruct (parse_results_table soup y) as [|r rs].
    + exists []. split; [now rewrite app_nil_r|constructor].
    + destruct (negb (next_link soup)).
      { exists (map (set_race_date d) (r :: rs)). split; [reflexivity|assumption]. }
      destruct (post http_post y (next_form soup) n) as [[soup'|] n'].
      * destruct (IH soup' (acc ++ map (set_race_date d) (r :: rs))%list n')
          as (more & E & Hm).
        exists (map (set_race_date d) (r :: rs) ++ more)%list. split.
        -- cbv beta iota zeta. now rewrite E, app_assoc.
        -- apply Forall_app. split; assumption.
      * exists (map (set_race_date d) (r :: rs)). split; [reflexivity|assumption].
Qed.

(** X4. Whatever the site answers, the crawl of a year ends after at
    least 1 and at most 101 requests: the GET of the year's page and at
    most 100 POSTs. *)
Theorem scrape_year_request_bound :
  forall (y : Z) (n : net server),
    (fetches n + 1
     <= fetches (snd (scrape_year http_get http_post get_race_date y n))
     <= fetches n + 101)%nat.
Proof.
  intros y n. unfold scrape_year, get_page.
  destruct (http_get y (site n)) as [[soup|] s]; [|simpl; lia].
  pose proof (scrape_pages_fetches max_pages y (get_race_date soup) soup []
                (mknet s (S (fetches n)))) as H.
  cbn [fetches] in H. assert (Hmax : max_pages = 100%nat) by reflexivity.
  cbv beta iota zeta. lia.
Qed.

(** X5. Every row that the crawl of a year returns carries that year
    and the race date read from the first page of the year; when the
    first request fails, no row is returned. *)
Theorem scrape_year_rows_tagged :
  forall (y : Z) (n : net server),
    match fst (http_get y (site n)) with
    | None => fst (scrape_year http_get http_post get_race_date y n) = []
    | Some first =>
        Forall (fun r => Scraper.year r = Some y /\
                         Scraper.race_date r = get_race_date first)
          (fst (scrape_year http_get http_post get_race_date y n))
    end.
Proof.
  intros y n. unfold scrape_year, get_page.
  destruct (http_get y (site n)) as [[soup|] s]; cbn [fst];
    [|reflexivity].
  destruct (scrape_pages_prefix max_pages y (get_race_date soup) soup []
              (mknet s (S (fetches n)))) as (more & E & Hm).
  cbv beta iota zeta. rewrite E. exact Hm.
Qed.

(** X6. A failed POST ends the crawl of the year and keeps what was
    collected: the rows gathered before and the rows of the page in
    hand are returned.  In general the rows gathered so far are always
    a prefix of what the loop returns. *)
Theorem scrape_pages_keeps_partial :
  forall (left : nat) (y : Z) (d : option date) (soup : page)
         (acc : list RaceResult) (n : net server),
    (exists more,
        fst (scrape_pages http_post left y d soup acc n) = (acc ++ more)%list) /\
    (forall s' : server,
        next_link soup = true ->
        http_post y (next_form soup) (site n) = (None, s') ->
        scrape_pages http_post (S left) y d soup acc n
        = ((acc ++ map (set_race_date d) (parse_results_table soup y))%list,
           if non_empty (parse_results_table soup y)
           then mknet s' (S (fetches n)) else n)).
Proof.
  intros left y d soup acc n. split.
  - destruct (scrape_pages_prefix left y d soup acc n) as (more & E & _).
    eauto.
  - intros s' Hnext Hpost. cbn [scrape_pages].
    destruct (parse_results_table soup y) as [|r rs].
    + simpl. now rewrite app_nil_r.
    + rewrite Hnext. cbn [negb]. unfold post. rewrite Hpost. reflexivity.
Qed.

Lemma scrape_years_spec (years : list Z) (acc : list RaceResult)
    (n : net server) :
  exists more,
    fst (scrape_years http_get http_post get_race_date years acc n)
    = (acc ++ more)%list /\
    Forall (fun r => exists y, In y years /\ Scraper.year r = Some y) more /\
    (fetches n + List.length years
     <= fetches (snd (scrape_years http_get http_post get_race_date years acc n))
     <= fetches n + 101 * List.length years)%nat.
Proof.
  revert acc n. induction years as [|y years IH]; intros acc n;
    cbn [scrape_years].
  - exists []. simpl. rewrite app_nil_r. repeat split; try constructor; lia.
  - pose proof (scrape_year_request_bound y n) as Hb.
    pose proof (scrape_year_rows_tagged y n) as Ht.
    destruct (scrape_year http_get http_post get_race_date y n)
      as [year_results n'] eqn:Ey.
    simpl in Hb, Ht.
    destruct (IH (acc ++ year_results)%list n') as (more & E & Hm & Hf).
    exists (year_results ++ more)%list. split; [|split].
    + now rewrite E, app_assoc.
    + apply Forall_app. split.
      * destruct (fst (http_get y (site n))).
        -- eapply Forall_impl; [|exact Ht]. intros r [Hr _].
           exists y. split; [now left|assumption].
        -- rewrite Ht. constructor.
      * eapply Forall_impl; [|exact Hm]. intros r (y0 & Hin & Hr).
        exists y0. split; [now right|assumption].
    + cbn [List.length]. lia.
Qed.

(** X7. The rows returned by the crawl of all years each carry one of
    the years asked for (the seven default years when none is given),
    and the crawl sends at least one and at most 101 requests per
    year. *)
Theorem scrape_all_years_rows :
  forall (years : option (list Z)) (n : net server),
    let asked := match years with
                 | None => default_years
                 | Some l => l
                 end in
    let out := scrape_all_years http_get http_post get_race_date years n in
    Forall (fun r => exists y, In y asked /\ Scraper.year r = Some y) (fst out) /\
    (fetches n + List.length asked <= fetches (snd out)
     <= fetches n + 101 * List.length asked)%nat.
Proof.
  intros years n asked out. subst out. unfold scrape_all_years. fold asked.
  destruct (scrape_years_spec asked [] n) as (more & E & Hm & Hf).
  rewrite E. simpl. split; assumption.
Qed.

End CrawlBounds.

Lemma scrape_pages_keeps_partial_witness :
  scrape_pages (fun _ _ (k : nat) => (@None page, S k)) 100 2024%Z None
    (three_pages 1) [] (mknet 5%nat 0%nat)
  = (parse_results_table (three_pages 1) 2024%Z, mknet 6%nat 1%nat).
Proof.
  destruct (scrape_pages_keeps_partial
              (fun _ _ (k : nat) => (@None page, S k)) 99 2024%Z None
              (three_pages 1) [] (mknet 5%nat 0%nat)) as [_ H].
  rewrite (H 6%nat); reflexivity.
Defined.

(* ===================================================================== *)
(** * Further properties of the weather fetcher *)
(* ===================================================================== *)

Lemma selected_in_window (i : nat) (times : list datetime) :
  Forall (fun it => in_race_window (snd it) = true) (selected i times).
Proof.
  revert i. induction times as [|t ts IH]; intros i; simpl; [constructor|].
  destruct (in_race_window t) eqn:E; [constructor; [exact E|]|]; apply IH.
Qed.

Lemma selected_length (i : nat) (times : list datetime) :
  (List.length (selected i times) <= List.length times)%nat.
Proof.
  revert i. induction times as [|t ts IH]; intros i; simpl; [lia|].
  destruct (in_race_window t); simpl; specialize (IH (S i)); lia.
Qed.

Lemma extract_result (h : option hourly) (d : date) (y : Z)
    (recs : list WeatherRecord) :
  extract_race_window_data h d y = Ok recs ->
  Forall (fun r => in_race_window (timestamp r) = true /\
                   Weather.year r = None /\ location r = None) recs /\
  (List.length recs
   <= List.length (match h with
                   | Some v => get_or_empty (h_time v)
                   | None => []
                   end))%nat.
Proof.
  destruct h as [v|]; simpl.
  - destruct (is_empty_dict v).
    + intros H. injection H as <-. split; [constructor|simpl; lia].
    + intros H. destruct (window_loop_read _ _ _ _ _ _ _ H) as [times Ht].
      rewrite (window_loop_ok _ _ _ _ Ht) in H. injection H as <-. simpl.
      split.
      * apply Forall_forall. intros r Hr.
        apply in_map_iff in Hr as (it & <- & Hit). simpl.
        pose proof (selected_in_window 0 times) as Hw.
        rewrite Forall_forall in Hw. auto.
      * rewrite length_map. pose proof (selected_length 0 times).
        pose proof (Forall2_length Ht). lia.
  - intros H. injection H as <-. split; [constructor|simpl; lia].
Qed.

Lemma extract_raises (h : option hourly) (d : date) (y : Z) (e : exn) :
  extract_race_window_data h d y = Raise e -> e = ValueError.
Proof.
  destruct h as [v|]; simpl; [|discriminate].
  destruct (is_empty_dict v); [discriminate|].
  destruct (stamps_read_or_not (get_or_empty (h_time v))) as [[times Ht]|Hv].
  - rewrite (window_loop_ok _ _ _ _ Ht). discriminate.
  - rewrite Hv. congruence.
Qed.

(** The date that [fetch_weather_for_race] works with: the date given,
    or the date part of the text given. *)
Definition date_of_arg (race_date : date_arg) : option date :=
  match race_date with
  | DateObj d => Some d
  | DateStr s => match fromisoformat s with
                 | Ok t => Some (dt_date t)
                 | Raise _ => None
                 end
  end.

Section FetchFacts.
Variable api : Q -> Q -> date -> option hourly.

Lemma fetch_weather_for_race_result (y : Z) (race_date : date_arg)
    (loc : string) (recs : list WeatherRecord) :
  fetch_weather_for_race api y race_date loc = Ok recs ->
  Forall (fun r => in_race_window (timestamp r) = true /\
                   Weather.year r = Some y /\
                   Weather.race_date r = date_of_arg race_date /\
                   location r = Some loc /\
                   (loc = "start" \/ loc = "summit")) recs.
Proof.
  unfold fetch_weather_for_race, date_of_arg.
  set (converted := match race_date with
                    | DateObj d => Some d
                    | DateStr s => match fromisoformat s with
                                   | Ok t => Some (dt_date t)
                                   | Raise _ => None
                                   end
                    end).
  destruct converted as [d|]; cbv beta iota zeta;
    [|intros H; injection H as <-; constructor].
  destruct (fetch_weather_for_date api d loc) as [h|] eqn:Eh;
    cbv beta iota zeta; [|intros H; injection H as <-; constructor].
  assert (Hloc : loc = "start" \/ loc = "summit").
  { unfold fetch_weather_for_date, locations in Eh.
    cbn [Weather.lookup] in Eh. revert Eh.
    destruct (String.eqb_spec "start" loc); [auto|].
    destruct (String.eqb_spec "summit" loc); [auto|discriminate]. }
  destruct (is_empty_dict h); [intros H; injection H as <-; constructor|].
  destruct (extract_race_window_data (Some h) d y) as [rs|e] eqn:Ex;
    [|discriminate].
  simpl. intros H. injection H as <-.
  apply extract_result in Ex as [Hrs _].
  apply Forall_forall. intros r Hr. apply in_map_iff in Hr as (r0 & <- & Hr0).
  rewrite Forall_forall in Hrs. destruct (Hrs r0 Hr0) as (Hw & _).
  simpl. auto.
Qed.

Lemma fetch_weather_for_race_raises (y : Z) (race_date : date_arg)
    (loc : string) (e : exn) :
  fetch_weather_for_race api y race_date loc = Raise e -> e = ValueError.
Proof.
  unfold fetch_weather_for_race.
  destruct (match race_date with
            | DateObj d => Some d
            | DateStr s => match fromisoformat s with
                           | Ok t => Some (dt_date t)
                           | Raise _ => None
                           end
            end) as [d|]; [|discriminate].
  destruct (fetch_weather_for_date api d loc) as [h|]; [|discriminate].
  destruct (is_empty_dict h); [discriminate|].
  destruct (extract_race_window_data (Some h) d y) as [rs|e0] eqn:Ex;
    [discriminate|].
  simpl. intros H. injection H as <-. eapply extract_raises; eassumption.
Qed.

(** X8. Every record that fetch_weather_for_race returns has its hour
    inside the race window and carries the year, the date worked with
    and the location given, which is then one of the two sites of the
    fetcher; the only exception the call lets out is the ValueError of
    an unreadable hourly stamp. *)
Theorem fetch_weather_for_race_records :
  forall (y : Z) (race_date : date_arg) (loc : string),
    match fetch_weather_for_race api y race_date loc with
    | Ok recs =>
        Forall (fun r => in_race_window (timestamp r) = true /\
                         Weather.year r = Some y /\
                         Weather.race_date r = date_of_arg race_date /\
                         location r = Some loc /\
                         (loc = "start" \/ loc = "summit")) recs
    | Raise e => e = ValueError
    end.
Proof.
  intros y race_date loc.
  destruct (fetch_weather_for_race api y race_date loc) as [recs|e] eqn:E.
  - now apply fetch_weather_for_race_result.
  - eapply fetch_weather_for_race_raises; eassumption.
Qed.

Lemma fetch_all_loop_result (items : list (Z * option date_arg))
    (acc out : list WeatherRecord) :
  fetch_all_loop api items acc = Ok out ->
  exists more,
    out = (acc ++ more)%list /\
    Forall (fun r =>
              in_race_window (timestamp r) = true /\
              (location r = Some "start" \/ location r = Some "summit") /\
              exists y d, In (y, Some d) items /\ no_race_date (Some d) = false /\
                          Weather.year r = Some y /\
                          Weather.race_date r = date_of_arg d) more.
Proof.
  revert acc out. induction items as [|[y rd] items IH]; intros acc out;
    cbn [fetch_all_loop].
  - intros H. injection H as <-. exists []. split; [now rewrite app_nil_r|].
    constructor.
  - assert (Hskip : fetch_all_loop api items acc = Ok out ->
                    exists more, out = (acc ++ more)%list /\
                      Forall (fun r =>
                        in_race_window (timestamp r) = true /\
                        (location r = Some "start" \/ location r = Some "summit") /\
                        exists y0 d, In (y0, Some d) ((y, rd) :: items) /\
                          no_race_date (Some d) = false /\
                          Weather.year r = Some y0 /\
                          Weather.race_date r = date_of_arg d) more).
    { intros H. destruct (IH _ _ H) as (more & E & Hm). exists more.
      split; [assumption|]. eapply Forall_impl; [|exact Hm].
      intros r (Hw & Hl & y0 & d & Hin & Hd). repeat split; try assumption.
      exists y0, d. split; [now right|assumption]. }
    destruct rd as [d|]; [|exact Hskip].
    destruct (no_race_date (Some d)) eqn:Ed; [exact Hskip|].
    destruct (fetch_weather_for_race api y d "start") as [s1|] eqn:E1;
      [|discriminate].
    destruct (fetch_weather_for_race api y d "summit") as [s2|] eqn:E2;
      [|discriminate].
    cbn [bind]. intros H. destruct (IH _ _ H) as (more & E & Hm).
    apply fetch_weather_for_race_result in E1, E2.
    exists ((s1 ++ s2) ++ more)%list. split.
    + rewrite E, <- !app_assoc. reflexivity.
    + apply Forall_app. split; [apply Forall_app; split|].
      * eapply Forall_impl; [|exact E1].
        intros r (Hw & Hy & Hd & Hl & _). repeat split; auto.
        exists y, d. repeat split; auto. now left.
      * eapply Forall_impl; [|exact E2].
        intros r (Hw & Hy & Hd & Hl & _). repeat split; auto.
        exists y, d. repeat split; auto. now left.
      * eapply Forall_impl; [|exact Hm].
        intros r (Hw & Hl & y0 & d0 & Hin & Hd). repeat split; try assumption.
        exists y0, d0. split; [now right|assumption].
Qed.

Lemma fetch_all_loop_raises (items : list (Z * option date_arg))
    (acc : list WeatherRecord) (e : exn) :
  fetch_all_loop api items acc = Raise e -> e = ValueError.
Proof.
  revert acc. induction items as [|[y rd] items IH]; intros acc;
    cbn [fetch_all_loop]; [discriminate|].
  destruct rd as [d|]; [|apply IH].
  destruct (no_race_date (Some d)); [apply IH|].
  destruct (fetch_weather_for_race api y d "start") as [s1|e1] eqn:E1.
  - destruct (fetch_weather_for_race api y d "summit") as [s2|e2] eqn:E2.
    + cbn [bind]. apply IH.
    + cbn [bind]. intros H. injection H as <-.
      eapply fetch_weather_for_race_raises; eassumption.
  - cbn [bind]. intros H. injection H as <-.
    eapply fetch_weather_for_race_raises; eassumption.
Qed.

(** X9. Every record that fetch_all_weather_data returns belongs to a
    year of the mapping that has a race date: it carries that year and
    date, the start or the summit location, and an hour inside the race
    window.  Years without a date give no record, and the only
    exception let out is the ValueError of an unreadable stamp. *)
Theorem fetch_all_weather_data_records :
  forall (race_dates_by_year : list (Z * option date_arg)),
    match fetch_all_weather_data api race_dates_by_year with
    | Ok recs =>
        Forall (fun r =>
                  in_race_window (timestamp r) = true /\
                  (location r = Some "start" \/ location r = Some "summit") /\
                  exists y d,
                    In (y, Some d) race_dates_by_year /\
                    no_race_date (Some d) = false /\
                    Weather.year r = Some y /\
                    Weather.race_date r = date_of_arg d) recs
    | Raise e => e = ValueError
    end.
Proof.
  intros items. unfold fetch_all_weather_data.
  destruct (fetch_all_loop api items []) as [recs|e] eqn:E.
  - destruct (fetch_all_loop_result _ _ E) as (more & -> & Hm). exact Hm.
  - eapply fetch_all_loop_raises; eassumption.
Qed.

End FetchFacts.

(* ===================================================================== *)
(** * Further properties of the store *)
(* ===================================================================== *)

Section SortFacts.
Variable A : Type.
Variable leb : A -> A -> bool.

Lemma insert_sorted_perm (x : A) (l : list A) :
  Permutation (insert_sorted leb x l) (x :: l).
Proof.
  induction l as [|y l IH]; simpl; [apply Permutation_refl|].
  destruct (leb x y); [apply Permutation_refl|].
  apply Permutation_trans with (y :: x :: l);
    [now apply perm_skip|apply perm_swap].
Qed.

Lemma sort_perm (l : list A) : Permutation (sort leb l) l.
Proof.
  induction l as [|x l IH]; simpl; [apply Permutation_refl|].
  apply Permutation_trans with (x :: sort leb l);
    [apply insert_sorted_perm|now apply perm_skip].
Qed.

Lemma sort_In (x : A) (l : list A) : In x (sort leb l) <-> In x l.
Proof.
  split; apply Permutation_in;
    [apply sort_perm|apply Permutation_sym, sort_perm].
Qed.


(** On values that the order compares, sorting gives a list in which
    every entry is below all later ones. *)
Variable ok : A -> Prop.
Hypothesis leb_total : forall a b, ok a -> ok b -> leb a b = true \/ leb b a = true.
Hypothesis leb_trans :
  forall a b c, ok a -> ok b -> ok c ->
                leb a b = true -> leb b c = true -> leb a c = true.

Lemma insert_sorted_sorted (x : A) (l : list A) :
  ok x -> Forall ok l ->
  StronglySorted (fun a b => leb a b = true) l ->
  StronglySorted (fun a b => leb a b = true) (insert_sorted leb x l).
Proof.
  intros Hx Hl Hs. induction Hs as [|y l Hs IH Hy]; simpl.
  - constructor; constructor.
  - pose proof (Forall_inv Hl) as Hoy. pose proof (Forall_inv_tail Hl) as Hol.
    destruct (leb x y) eqn:E.
    + constructor; [now constructor|]. constructor; [exact E|].
      apply Forall_forall. intros z Hz.
      rewrite Forall_forall in Hy, Hol.
      eapply leb_trans; [exact Hx|exact Hoy|now apply Hol|exact E|now apply Hy].
    + constructor; [apply IH; exact Hol|].
      destruct (leb_total Hx Hoy) as [E'|E']; [congruence|].
      apply Forall_forall. intros z Hz.
      apply (Permutation_in _ (insert_sorted_perm x l)) in Hz.
      destruct Hz as [<-|Hz]; [exact E'|].
      rewrite Forall_forall in Hy. now apply Hy.
Qed.

Lemma sort_sorted (l : list A) :
  Forall ok l -> StronglySorted (fun a b => leb a b = true) (sort leb l).
Proof.
  induction 1 as [|x l Hx Hl IH]; simpl; [constructor|].
  apply insert_sorted_sorted; [assumption| |assumption].
  apply Forall_forall. intros z Hz. apply (proj1 (sort_In z l)) in Hz.
  rewrite Forall_forall in Hl. now apply Hl.
Qed.
End SortFacts.

Lemma sort_Z_increasing (l : list Z) :
  NoDup l -> StronglySorted Z.lt (sort Z.leb l).
Proof.
  intros Hnd.
  assert (Hs : StronglySorted (fun a b => Z.leb a b = true) (sort Z.leb l)).
  { apply (@sort_sorted Z Z.leb (fun _ => True)).
    - intros a b _ _. destruct (Z.leb_spec a b); [now left|right].
      apply Z.leb_le. lia.
    - intros a b c _ _ _ H1 H2. apply Z.leb_le in H1, H2. apply Z.leb_le. lia.
    - apply Forall_forall. auto. }
  assert (Hn : NoDup (sort Z.leb l)).
  { apply (Permutation_NoDup (Permutation_sym (sort_perm Z.leb l)) Hnd). }
  induction Hs as [|x s Hs IH Hx]; constructor.
  - apply IH. now inversion Hn.
  - inversion Hn as [|? ? Hnot _]; subst. apply Forall_forall. intros z Hz.
    rewrite Forall_forall in Hx. specialize (Hx z Hz). apply Z.leb_le in Hx.
    assert (x <> z) by (intros ->; contradiction). lia.
Qed.

Lemma year_exists_iff (d : db) (y : Z) :
  year_exists d y = true <->
  exists r, In r (race_results d) /\ Scraper.year (cols r) = Some y.
Proof.
  unfold year_exists. split.
  - intros H. apply Nat.ltb_lt in H.
    destruct (filter (result_year_is y) (race_results d)) as [|r l] eqn:E;
      [simpl in H; lia|].
    assert (Hr : In r (filter (result_year_is y) (race_results d)))
      by (rewrite E; now left).
    apply filter_In in Hr as [Hin Hy]. exists r. split; [assumption|].
    unfold result_year_is, sql_eq in Hy.
    destruct (Scraper.year (cols r)) as [v|]; [|discriminate].
    apply Z.eqb_eq in Hy. now subst.
  - intros (r & Hin & Hy). apply Nat.ltb_lt.
    assert (Hr : In r (filter (result_year_is y) (race_results d))).
    { apply filter_In. split; [assumption|].
      unfold result_year_is, sql_eq. rewrite Hy. apply Z.eqb_refl. }
    destruct (filter (result_year_is y) (race_results d));
      [destruct Hr|simpl; lia].
Qed.

(** X10. get_all_years lists the years in strictly increasing order,
    and a year is listed exactly when year_exists answers true for it. *)
Theorem get_all_years_sorted :
  forall (d : db),
    StronglySorted Z.lt (get_all_years d) /\
    (forall y : Z, In y (get_all_years d) <-> year_exists d y = true).
Proof.
  intros d. unfold get_all_years. split.
  - apply sort_Z_increasing, NoDup_nodup.
  - intros y. rewrite sort_In, nodup_In, in_flat_map, year_exists_iff.
    split.
    + intros (r & Hin & Hy). exists r. split; [assumption|].
      destruct (Scraper.year (cols r)) as [v|]; [|destruct Hy].
      destruct Hy as [<-|[]]. reflexivity.
    + intros (r & Hin & Hy). exists r. split; [assumption|].
      rewrite Hy. now left.
Qed.

Lemma year_exists_rows (d : db) (y : Z) :
  year_exists d y = non_empty (rows_of_year y d).
Proof.
  unfold year_exists, rows_of_year.
  now destruct (filter (result_year_is y) (race_results d)).
Qed.

Lemma sql_eq_other (c : option Z) (y y' : Z) :
  y' <> y -> sql_eq c y' = true -> sql_eq c y = false.
Proof.
  unfold sql_eq. destruct c as [v|]; [|discriminate].
  intros Hne H. apply Z.eqb_eq in H. subst v. now apply Z.eqb_neq.
Qed.

(** X11. After delete_year_data the year is gone from both tables and
    year_exists answers false for it; the rows of every other year, in
    both tables, are the same as before. *)
Theorem delete_year_data_spec :
  forall (y : Z) (d : db),
    let d' := delete_year_data y d in
    year_exists d' y = false /\
    rows_of_year y d' = [] /\ weather_of_year y d' = [] /\
    (forall y' : Z, y' <> y ->
        rows_of_year y' d' = rows_of_year y' d /\
        weather_of_year y' d' = weather_of_year y' d /\
        year_exists d' y' = year_exists d y').
Proof.
  intros y d d'.
  assert (E1 : rows_of_year y d' = []).
  { unfold rows_of_year. simpl. rewrite filter_filter.
    rewrite <- (filter_false (race_results d)). apply filter_ext.
    intros r. now destruct (result_year_is y r). }
  assert (E2 : weather_of_year y d' = []).
  { unfold weather_of_year. simpl. rewrite filter_filter.
    rewrite <- (filter_false (weather_data d)). apply filter_ext.
    intros r. now destruct (weather_year_is y r). }
  split; [now rewrite year_exists_rows, E1|]. split; [exact E1|].
  split; [exact E2|].
  intros y' Hne.
  assert (E3 : rows_of_year y' d' = rows_of_year y' d).
  { unfold rows_of_year. simpl. rewrite filter_filter. apply filter_ext.
    intros r. unfold result_year_is.
    destruct (sql_eq (Scraper.year (cols r)) y') eqn:E;
      [|apply andb_false_r].
    now rewrite (sql_eq_other _ Hne E). }
  split; [exact E3|]. split.
  - unfold weather_of_year. simpl. rewrite filter_filter. apply filter_ext.
    intros r. unfold weather_year_is.
    destruct (sql_eq (Weather.year (cols r)) y') eqn:E;
      [|apply andb_false_r].
    now rewrite (sql_eq_other _ Hne E).
  - now rewrite !year_exists_rows, E3.
Qed.

Lemma delete_year_data_spec_witness :
  let d := fst (insert_race_results
                  [result_of 2023 2800; result_of 2024 3000] false empty_db) in
  rows_of_year 2023 (delete_year_data 2024 d) = rows_of_year 2023 d.
Proof.
  destruct (delete_year_data_spec 2024
              (fst (insert_race_results
                      [result_of 2023 2800; result_of 2024 3000] false empty_db)))
    as (_ & _ & _ & H).
  destruct (H 2023%Z) as (E & _); [discriminate|exact E].
Defined.



(** ** The weather table *)









(** ** The forced rebuild *)

Import Main.



(** ** Percentiles of the store *)










(* ===================================================================== *)
(** * Further properties of the correlation *)
(* ===================================================================== *)

Local Open Scope R_scope.

Lemma clip_range (a : rfloat) :
  match clip a with
  | RFin r => -1 <= r <= 1
  | RInf _ => False
  | RNaN => True
  end.
Proof.
  destruct a as [r|s|]; simpl; [|destruct s; lra|exact I].
  unfold Rmin, Rmax.
  destruct (Rle_dec r (-1)); destruct (Rle_dec _ 1); lra.
Qed.

Lemma rint_bounds (r : R) (lo hi : Z) :
  IZR lo <= r <= IZR hi -> (lo <= rint r <= hi)%Z.
Proof.
  intros [Hlo Hhi]. pose proof (rint_near r) as Hn.
  assert (Hr : -(1/2) <= IZR (rint r) - r <= 1/2).
  { pose proof (Rle_abs (IZR (rint r) - r)).
    pose proof (Rle_abs (- (IZR (rint r) - r))) as H2.
    rewrite Rabs_Ropp in H2. lra. }
  split.
  - apply Z.lt_succ_r. apply lt_IZR. rewrite succ_IZR. lra.
  - apply Z.lt_succ_r. apply lt_IZR. rewrite succ_IZR. lra.
Qed.

(** X16. Whatever the two series, the correlation calculator answers
    null exactly when fewer than two pairs have both values; otherwise
    it answers NaN or a multiple of 0.001 between -1 and 1, never an
    infinity. *)
Theorem calculate_correlation_range :
  forall xs ys : list (option R),
    match calculate_correlation xs ys with
    | None => (List.length (valid_pairs xs ys) < 2)%nat
    | Some (RFin r) =>
        (2 <= List.length (valid_pairs xs ys))%nat /\
        exists k : Z, r = IZR k / 1000 /\ (-1000 <= k <= 1000)%Z
    | Some (RInf _) => False
    | Some RNaN => (2 <= List.length (valid_pairs xs ys))%nat
    end.
Proof.
  intros xs ys. unfold calculate_correlation.
  destruct (Nat.ltb_spec (List.length (valid_pairs xs ys)) 2) as [Hl|Hl];
    [exact Hl|].
  set (x := map fst (valid_pairs xs ys)). set (y := map snd (valid_pairs xs ys)).
  unfold corrcoef.
  set (a := rdiv (rdiv (RFin (cov x y)) (sqrt (cov x x))) (sqrt (cov y y))).
  pose proof (clip_range a) as Hc.
  destruct (clip a) as [r|s|]; simpl; [|destruct Hc|exact Hl].
  split; [exact Hl|]. exists (rint (r * 1000)). split; [reflexivity|].
  apply rint_bounds. simpl. lra.
Qed.

Lemma valid_pairs_app (xs1 xs2 ys1 ys2 : list (option R)) :
  List.length xs1 = List.length ys1 ->
  valid_pairs (xs1 ++ xs2) (ys1 ++ ys2)
  = (valid_pairs xs1 ys1 ++ valid_pairs xs2 ys2)%list.
Proof.
  unfold valid_pairs. revert ys1.
  induction xs1 as [|a xs1 IH]; intros [|b ys1] H; try discriminate H.
  - reflexivity.
  - injection H as H. simpl. rewrite (IH _ H).
    now rewrite app_assoc.
Qed.

(** X17. A position where either series holds null does not count: the
    correlation of two series is that of the series without this
    position.  The entries of the longer series beyond the end of the
    shorter one do not count either. *)
Theorem calculate_correlation_ignores_null :
  (forall (xs1 xs2 ys1 ys2 : list (option R)) (a b : option R),
      List.length xs1 = List.length ys1 ->
      a = None \/ b = None ->
      calculate_correlation (xs1 ++ a :: xs2) (ys1 ++ b :: ys2)
      = calculate_correlation (xs1 ++ xs2) (ys1 ++ ys2)) /\
  (forall (xs ys extra : list (option R)),
      List.length xs = List.length ys ->
      calculate_correlation (xs ++ extra) ys = calculate_correlation xs ys /\
      calculate_correlation xs (ys ++ extra) = calculate_correlation xs ys).
Proof.
  split.
  - intros xs1 xs2 ys1 ys2 a b Hlen Hnull. unfold calculate_correlation.
    rewrite !valid_pairs_app by assumption.
    assert (E : valid_pairs (a :: xs2) (b :: ys2) = valid_pairs xs2 ys2).
    { unfold valid_pairs. simpl.
      destruct Hnull as [-> | ->]; [reflexivity|now destruct a]. }
    now rewrite E.
  - intros xs ys extra Hlen.
    assert (E1 : valid_pairs extra [] = []).
    { unfold valid_pairs. now rewrite combine_nil. }
    assert (A1 : valid_pairs (xs ++ extra) ys = valid_pairs xs ys).
    { pose proof (valid_pairs_app xs extra ys [] Hlen) as H.
      rewrite app_nil_r, E1, app_nil_r in H. exact H. }
    assert (A2 : valid_pairs xs (ys ++ extra) = valid_pairs xs ys).
    { pose proof (valid_pairs_app xs [] ys extra Hlen) as H.
      rewrite !app_nil_r in H. exact H. }
    unfold calculate_correlation. rewrite A1, A2. split; reflexivity.
Qed.

Lemma calculate_correlation_ignores_null_witness :
  calculate_correlation [Some 1; None; Some 2] [Some 5; Some 0; Some 7]
  = calculate_correlation [Some 1; Some 2] [Some 5; Some 7].
Proof.
  destruct calculate_correlation_ignores_null as [H _].
  apply (H [Some 1] [Some 2] [Some 5] [Some 7] None (Some 0)).
  - reflexivity.
  - left. reflexivity.
Defined.

(* ===================================================================== *)
(** * The formatted time and the duration parser *)
(* ===================================================================== *)

Local Close Scope R_scope.
Local Open Scope Z_scope.


























(* ===================================================================== *)
(** * The statistics of the analysis and the store *)
(* ===================================================================== *)

Import Analysis.







Lemma get_all_years_sorted_witness :
  In 2023 (get_all_years
             (fst (insert_race_results
                     [result_of 2024 3000; result_of 2023 2800] false empty_db))).
Proof.
  destruct (get_all_years_sorted
              (fst (insert_race_results
                      [result_of 2024 3000; result_of 2023 2800] false empty_db)))
    as [_ H].
  apply H. reflexivity.
Defined.
